(** * Linda: the webhook intake and dispatch pipeline

    A shallow embedding of [src/index.ts] (the HTTP handler),
    [src/agent/linda.ts] (summarizer, classifier, logger, dispatch,
    notifier) and [src/utils/googleClient.ts] (the spreadsheet client),
    with the properties of the pipeline proved over it.

    Conventions of the embedding:
    - a JavaScript string is a [string] that holds the bytes of its UTF-8
      encoding (case mapping and white space are the ASCII ones, a byte
      above 127 is a caseless, non-blank character); a [Buffer] is a
      [string] too, holding its bytes as they are;
    - [undefined] is [None] in an [option];
    - a promise that rejects, or a [throw], is the [Throw] outcome of the
      computation; a collaborator behind the network answers through the
      [World] record;
    - every observable action of a request (remote call, HTTP response)
      is appended to a trace. *)

From stdpp Require Import base option list strings gmap pretty.
From Stdlib Require Import ZArith Ascii String.

Local Open Scope string_scope.
Local Open Scope list_scope.

(** ** Errors and outcomes *)

Inductive error : Type :=
| TypeError                       (* property of null/undefined, call of a non-function, ... *)
| SyntaxError                     (* JSON.parse on a malformed text *)
| Error (message : string)        (* [new Error(message)] *)
| Rejected (reason : string).     (* a collaborator's call that rejects *)

Inductive outcome (A : Type) : Type :=
| Ok (a : A)
| Throw (e : error).
Arguments Ok {A} a.
Arguments Throw {A} e.

Definition obind {A B} (x : outcome A) (k : A -> outcome B) : outcome B :=
  match x with
  | Ok a => k a
  | Throw e => Throw e
  end.

Definition returns {A} (x : outcome A) : bool :=
  match x with Ok _ => true | Throw _ => false end.

(** ** JavaScript strings *)

Module JsString.

(** [s.toLowerCase()] *)
Definition lower_char (c : ascii) : ascii :=
  let n := nat_of_ascii c in
  if (65 <=? n)%nat && (n <=? 90)%nat then ascii_of_nat (n + 32) else c.

Fixpoint toLowerCase (s : string) : string :=
  match s with
  | EmptyString => EmptyString
  | String c r => String (lower_char c) (toLowerCase r)
  end.

(** [s.startsWith(p)] *)
Fixpoint startsWith (s p : string) {struct p} : bool :=
  match p, s with
  | EmptyString, _ => true
  | String _ _, EmptyString => false
  | String a p', String b s' => if Ascii.eqb a b then startsWith s' p' else false
  end.

(** [s.includes(p)] *)
Fixpoint includes (s p : string) : bool :=
  startsWith s p ||
  match s with
  | EmptyString => false
  | String _ r => includes r p
  end.

(** WhiteSpace and LineTerminator code points of the ASCII range. *)
Definition is_blank (c : ascii) : bool :=
  let n := nat_of_ascii c in
  ((9 <=? n)%nat && (n <=? 13)%nat) || (n =? 32)%nat.

Fixpoint trimStart (s : string) : string :=
  match s with
  | EmptyString => EmptyString
  | String c r => if is_blank c then trimStart r else s
  end.

(** Removes the trailing blanks: a character stays when it is not blank
    or when something stays after it. *)
Fixpoint trimEnd (s : string) : string :=
  match s with
  | EmptyString => EmptyString
  | String c r =>
      match trimEnd r with
      | EmptyString => if is_blank c then EmptyString else String c EmptyString
      | r' => String c r'
      end
  end.

(** [s.trim()] *)
Definition trim (s : string) : string := trimEnd (trimStart s).

(** [xs.join(sep)] on an array whose elements are already strings. *)
Fixpoint join (sep : string) (xs : list string) : string :=
  match xs with
  | [] => ""
  | [x] => x
  | x :: r => x +:+ sep +:+ join sep r
  end.

End JsString.

(** ** Buffers *)

Module Utf8.

(** [buffer.toString()], the UTF-8 decoder that a [Buffer] meets when it
    is appended to a string. A well-formed character is passed on, an
    ill-formed sequence becomes U+FFFD: a byte that cannot begin a
    character, a character begun and broken off by a byte out of range
    (that byte is then read again as a first byte), a character begun
    and cut by the end of the buffer. The text produced is held as its
    UTF-8 bytes, so a character passed on is the bytes that were read. *)

(** The decoder between two bytes. *)
Record state : Type := {
  pending : string;      (* the bytes read of the character begun *)
  needed : nat;          (* how many bytes of it are still to come *)
  lower : N;             (* the least and the greatest value the *)
  upper : N              (* next byte of it may have *)
}.

Definition start : state :=
  {| pending := ""; needed := 0; lower := 128; upper := 191 |}.

(** U+FFFD, in UTF-8. *)
Definition replacement : string :=
  String (ascii_of_nat 239) (String (ascii_of_nat 191) (String (ascii_of_nat 189) "")).

Definition between (lo b hi : N) : bool := (lo <=? b)%N && (b <=? hi)%N.

(** A byte read when no character is begun. *)
Definition lead (c : ascii) : string * state :=
  let b := N_of_ascii c in
  if (b <=? 127)%N then (String c "", start)
  else if between 194 b 223 then
    ("", {| pending := String c ""; needed := 1; lower := 128; upper := 191 |})
  else if between 224 b 239 then
    ("", {| pending := String c ""; needed := 2;
            lower := if (b =? 224)%N then 160 else 128;
            upper := if (b =? 237)%N then 159 else 191 |})
  else if between 240 b 244 then
    ("", {| pending := String c ""; needed := 3;
            lower := if (b =? 240)%N then 144 else 128;
            upper := if (b =? 244)%N then 143 else 191 |})
  else (replacement, start).

(** One byte read: what is produced, and the decoder after it. *)
Definition step (st : state) (c : ascii) : string * state :=
  match needed st with
  | O => lead c
  | S n =>
      if between (lower st) (N_of_ascii c) (upper st) then
        match n with
        | O => (pending st +:+ String c "", start)
        | S _ => ("", {| pending := pending st +:+ String c ""; needed := n;
                         lower := 128; upper := 191 |})
        end
      else
        let (out, st') := lead c in (replacement +:+ out, st')
  end.

Fixpoint feed (st : state) (bytes : string) : string * state :=
  match bytes with
  | EmptyString => ("", st)
  | String c r =>
      let (out, st1) := step st c in
      let (rest, st2) := feed st1 r in
      (out +:+ rest, st2)
  end.

(** The end of the buffer. *)
Definition flush (st : state) : string :=
  match needed st with
  | O => ""
  | S _ => replacement
  end.

Definition decode (bytes : string) : string :=
  let (out, st) := feed start bytes in out +:+ flush st.

(** Between two characters the decoder is as it was at the start. *)
Definition idle (st : state) : Prop := needed st = 0 -> st = start.

(** The buffer ends on a character boundary: no character is begun
    when its last byte has been read. *)
Definition whole (bytes : string) : bool :=
  Nat.eqb (needed (feed start bytes).2) 0.

End Utf8.

(** ** Values delivered by [JSON.parse] *)

#[warnings="-register-all"]
Inductive value : Type :=
| VNull
| VBool (b : bool)
| VNum (shown : string)     (* a number, carried by its [String(n)] rendering *)
| VStr (s : string)
| VArr (items : list value)
| VObj (fields : list (string * value)).

Module Js.

(** The own property [k] of an object literal; [None] is [undefined]. *)
Fixpoint own (fields : list (string * value)) (k : string) : option value :=
  match fields with
  | [] => None
  | (k', v) :: r => if String.eqb k' k then Some v else own r k
  end.

(** [v.k] for the property names the agent reads ([repository],
    [commits], [full_name], [message], [issue], [title], [body],
    [comment]): none of them is a member of a built-in prototype, so
    only an object's own properties answer; reading a property of
    [null] or [undefined] is a TypeError. *)
Definition get (v : option value) (k : string) : outcome (option value) :=
  match v with
  | None | Some VNull => Throw TypeError
  | Some (VObj fields) => Ok (own fields k)
  | Some _ => Ok None
  end.

(** [v?.k] *)
Definition get_opt (v : option value) (k : string) : outcome (option value) :=
  match v with
  | None | Some VNull => Ok None
  | _ => get v k
  end.

(** [v ?? d]: [d] replaces [null] and [undefined] only. *)
Definition nullish (v : option value) (d : value) : value :=
  match v with
  | None | Some VNull => d
  | Some x => x
  end.

(** All the outcomes of a list, or the first failure. *)
Fixpoint sequence {A} (xs : list (outcome A)) : outcome (list A) :=
  match xs with
  | [] => Ok []
  | x :: r => obind x (fun a => obind (sequence r) (fun l => Ok (a :: l)))
  end.

(** [String(v)], the conversion a template literal and [join] apply.
    An object converts through [Object.prototype.toString] unless an own
    [toString] property (never callable in parsed JSON) shadows it, in
    which case the conversion to a primitive fails; an array converts as
    [items.join(",")], where [null] elements give the empty string. *)
Fixpoint toString (v : value) : outcome string :=
  match v with
  | VNull => Ok "null"
  | VBool true => Ok "true"
  | VBool false => Ok "false"
  | VNum shown => Ok shown
  | VStr s => Ok s
  | VArr items =>
      obind (sequence (map (fun x => match x with
                                     | VNull => Ok ""
                                     | _ => toString x
                                     end) items))
            (fun l => Ok (JsString.join "," l))
  | VObj fields =>
      match own fields "toString" with
      | Some _ => Throw TypeError
      | None => Ok "[object Object]"
      end
  end.

(** [`${v}`] for a possibly undefined [v]. *)
Definition show (v : option value) : outcome string :=
  match v with
  | None => Ok "undefined"
  | Some x => toString x
  end.

(** The element conversion of [Array.prototype.join]. *)
Definition show_item (v : option value) : outcome string :=
  match v with
  | None | Some VNull => Ok ""
  | Some x => toString x
  end.

(** [items.join(sep)] on an array of arbitrary values. *)
Definition join (sep : string) (items : list (option value)) : outcome string :=
  obind (sequence (map show_item items)) (fun l => Ok (JsString.join sep l)).

End Js.

(** ** The agent: summarizer and classifier ([src/agent/linda.ts]) *)

(** [commits?.map((c) => c.message)]: [undefined] on a nullish [commits],
    a TypeError when [commits] has no callable [map] (anything but an
    array) or when an element is [null]. *)
Definition commit_messages (commits : option value)
  : outcome (option (list (option value))) :=
  match commits with
  | None | Some VNull => Ok None
  | Some (VArr items) =>
      obind (Js.sequence (map (fun c => Js.get (Some c) "message") items))
            (fun ms => Ok (Some ms))
  | Some _ => Throw TypeError
  end.

(** [commits?.map(...).join(" | ")]: the optional chain short-circuits as
    a whole. *)
Definition joined_messages (commits : option value) : outcome (option value) :=
  obind (commit_messages commits) (fun r =>
    match r with
    | None => Ok None
    | Some ms => obind (Js.join " | " ms) (fun s => Ok (Some (VStr s)))
    end).

Definition summarizeEvent (event : string) (payload : value) : outcome string :=
  if String.eqb event "push" then
    obind (Js.get (Some payload) "repository") (fun repo =>
    obind (Js.get (Some payload) "commits") (fun commits =>
    obind (Js.get_opt repo "full_name") (fun full_name =>
    obind (Js.toString (Js.nullish full_name (VStr "unknown"))) (fun name =>
    obind (joined_messages commits) (fun joined =>
    obind (Js.show joined) (fun msgs =>
    Ok ("Push to " +:+ name +:+ ": " +:+ msgs)))))))
  else if String.eqb event "issues" then
    obind (Js.get (Some payload) "issue") (fun issue =>
    obind (Js.get_opt issue "title") (fun title =>
    obind (Js.toString (Js.nullish title (VStr ""))) (fun title_s =>
    obind (Js.get_opt issue "body") (fun body =>
    obind (Js.toString (Js.nullish body (VStr ""))) (fun body_s =>
    Ok (JsString.trim ("Issue: " +:+ title_s +:+ " " +:+ body_s)))))))
  else if String.eqb event "issue_comment" then
    obind (Js.get (Some payload) "comment") (fun comment =>
    obind (Js.get_opt comment "body") (fun body =>
    obind (Js.toString (Js.nullish body (VStr ""))) (fun body_s =>
    Ok (JsString.trim ("Issue comment: " +:+ body_s)))))
  else
    Ok ("Unhandled event " +:+ event).

Definition decideAction (summary : string) : string :=
  let lowered := JsString.toLowerCase summary in
  if JsString.includes lowered "build an agent"
     || JsString.includes lowered "generate a new agent"
  then "build-agent"
  else "fix-or-feature".

(** ** The payload shapes the summarizer declares *)

(** The casts of [summarizeEvent] declare [repository], [issue] and
    [comment] as objects with optional text fields and [commits] as an
    array of such objects, each possibly undefined. [shaped] decides
    whether a parsed payload has these shapes; [null] counts as absent,
    as it does for [?.] and [??]. *)
Definition absent_or (p : value -> bool) (v : option value) : bool :=
  match v with
  | None | Some VNull => true
  | Some x => p x
  end.

Definition is_text (v : value) : bool :=
  match v with VStr _ => true | _ => false end.

(** An object whose property [k] is a text or absent. *)
Definition has_text (k : string) (v : value) : bool :=
  match v with
  | VObj fields => absent_or is_text (Js.own fields k)
  | _ => false
  end.

Definition is_commits (v : value) : bool :=
  match v with
  | VArr items => forallb (has_text "message") items
  | _ => false
  end.

Definition shaped (payload : value) : bool :=
  match payload with
  | VObj fields =>
      absent_or (has_text "full_name") (Js.own fields "repository")
      && absent_or is_commits (Js.own fields "commits")
      && absent_or (fun i => has_text "title" i && has_text "body" i)
                   (Js.own fields "issue")
      && absent_or (has_text "body") (Js.own fields "comment")
  | _ => false
  end.

(** The property [k] of [v] when [v] is an object that has it. *)
Definition field (v : option value) (k : string) : option value :=
  match v with
  | Some (VObj fields) => Js.own fields k
  | _ => None
  end.

(** The text held by [v], or [d] when [v] is not a text. *)
Definition text_or (d : string) (v : option value) : string :=
  match v with
  | Some (VStr s) => s
  | _ => d
  end.

(** ** Effects: the trace of a request and its collaborators *)

(** One entry of the [tree] array given to [git.createTree]. *)
Record tree_entry : Type := TreeEntry {
  entry_path : string;
  entry_mode : string;
  entry_type : string;
  entry_sha : string
}.

(** The observable actions: one constructor per remote call of the code,
    with the arguments the code passes, and the HTTP response. *)
Inductive effect : Type :=
| SheetsAppend (email key spreadsheetId range valueInputOption : string)
               (values : list (list string))
| ModelInvoke (model : string) (messages : list (string * string))
| ReposCreate (auth name description : string) (private : bool)
| GitGetRef (auth owner repo ref : string)
| GitGetCommit (auth owner repo commit_sha : string)
| GitCreateBlob (auth owner repo content encoding : string)
| GitCreateTree (auth owner repo base_tree : string) (tree : list tree_entry)
| GitCreateCommit (auth owner repo message tree : string) (parents : list string)
| GitUpdateRef (auth owner repo ref sha : string)
| TelegramSend (token chatId message : string)
| Respond (status : Z) (contentType : string) (payload : value).

Abbreviation trace := (list effect).

(** What lies outside the process. Every answer may depend on the
    history of the actions performed so far. *)
Record World : Type := {
  (* lower-case hexadecimal HMAC-SHA256 of a text under a secret *)
  hmac_sha256_hex : string -> string -> string;
  (* [JSON.parse]; [None] is a SyntaxError *)
  json_parse : string -> option value;
  (* [new Date().toISOString()], and [Date.now()] in milliseconds, an
     integer that [String] renders as its decimal numeral *)
  clock_iso : trace -> string;
  clock_ms : trace -> Z;
  (* answers of the collaborators to the call recorded by the effect:
     [None] where a call that resolves carries no data the code reads *)
  sheets_append : trace -> effect -> option error;
  model_invoke : trace -> effect -> outcome string;          (* response.content *)
  repos_create : trace -> effect -> option error;
  git_getRef : trace -> effect -> outcome string;            (* ref.object.sha *)
  git_getCommit : trace -> effect -> outcome (string * string); (* commit.sha, commit.tree.sha *)
  git_createBlob : trace -> effect -> outcome string;        (* blob.sha *)
  git_createTree : trace -> effect -> outcome string;        (* tree.sha *)
  git_createCommit : trace -> effect -> outcome string;      (* newCommit.sha *)
  git_updateRef : trace -> effect -> option error;
  telegram_send : trace -> effect -> option error
}.

(** A computation reads the history and yields an outcome together with
    the effects it performed itself, in order. *)
Definition M (A : Type) : Type := trace -> outcome A * trace.

Definition ret {A} (a : A) : M A := fun _ => (Ok a, []).

Definition bind {A B} (m : M A) (k : A -> M B) : M B :=
  fun h =>
    match m h with
    | (Ok a, t1) =>
        match k a (h ++ t1) with
        | (r, t2) => (r, t1 ++ t2)
        end
    | (Throw e, t1) => (Throw e, t1)
    end.

Notation "'let*' x := m 'in' k" := (bind m (fun x => k))
  (at level 10, x name, m at level 100, k at level 200).
Notation "'do*' m 'in' k" := (bind m (fun _ => k))
  (at level 10, m at level 100, k at level 200).

(** A pure step that may throw. *)
Definition lift {A} (x : outcome A) : M A := fun _ => (x, []).

(** A remote call that resolves with data or rejects. *)
Definition call {A} (answer : trace -> effect -> outcome A) (e : effect) : M A :=
  fun h => (answer h e, [e]).

(** A remote call whose data is not read. *)
Definition call_ (answer : trace -> effect -> option error) (e : effect) : M unit :=
  fun h => (match answer h e with None => Ok tt | Some err => Throw err end, [e]).

(** Reading a clock is not an effect of the trace. *)
Definition ask {A} (f : trace -> A) : M A := fun h => (Ok (f h), []).

(** A possibly undefined string as a condition: [Some s] when it is
    truthy (defined and not empty), [None] when [!x] holds. *)
Definition truthy (x : option string) : option string :=
  match x with
  | Some s => if String.eqb s "" then None else Some s
  | None => None
  end.

Definition dquote : string := String (ascii_of_nat 34) "".
Definition newline : string := String (ascii_of_nat 10) "".

(** ** The program *)

(** The part of an [IncomingMessage] the handler reads. *)
Record Request : Type := {
  req_method : string;
  req_headers : gmap string string;
  (* the ['data'] chunks of the body, each a [Buffer], followed by
     ['end'] or, with [Some e], by ['error'] *)
  req_chunks : list string;
  req_error : option error
}.

Section Program.

Variable w : World.
(** [process.env], fixed for the life of the process. *)
Variable env : gmap string string.

(** *** [src/utils/googleClient.ts] *)

(** [key.replace(/\\n/g, "\n")]: every backslash followed by [n]
    becomes a line feed. *)
Fixpoint unescape_newlines (s : string) : string :=
  match s with
  | String "\" (String "n" r) => String (ascii_of_nat 10) (unescape_newlines r)
  | String c r => String c (unescape_newlines r)
  | EmptyString => EmptyString
  end.

(** The credentials of the service account, [email] and [key]. *)
Definition getAuth : outcome (string * string) :=
  let clientEmail := env !! "GOOGLE_CLIENT_EMAIL" in
  let privateKey := unescape_newlines <$> env !! "GOOGLE_PRIVATE_KEY" in
  match truthy clientEmail, truthy privateKey with
  | Some email, Some key => Ok (email, key)
  | _, _ => Throw (Error "Missing GOOGLE_CLIENT_EMAIL or GOOGLE_PRIVATE_KEY")
  end.

Definition appendToSheet (spreadsheetId range : string)
                         (values : list (list string)) : M unit :=
  let* auth := lift getAuth in
  call_ (sheets_append w)
        (SheetsAppend auth.1 auth.2 spreadsheetId range "RAW" values).

(** *** [src/agent/linda.ts] *)

Definition systemPrompt : string :=
  "You are Linda, an Elite Senior Developer Assistant and autonomous co-worker."
  +:+ newline +:+
  "You analyze GitHub events, fix bugs, implement features, and can scaffold new AI agents."
  +:+ newline +:+
  "If the user explicitly asks to " +:+ dquote +:+ "build an agent" +:+ dquote
  +:+ " or " +:+ dquote +:+ "generate a new agent" +:+ dquote
  +:+ ", you must create a new agent codebase and push it to a new repository.".

(** The [model] option of [openAiModel]. *)
Definition openAiModel : string := default "gpt-4o-mini" (env !! "OPENAI_MODEL").

(** The [func] of the [commitFileToGitHub] tool. *)
Definition commitFileToGitHub (owner repo path message content branch : string)
  : M string :=
  match truthy (env !! "GITHUB_TOKEN") with
  | None => ret "Missing GITHUB_TOKEN"
  | Some token =>
      let* ref_sha := call (git_getRef w)
                           (GitGetRef token owner repo ("heads/" +:+ branch)) in
      let* commit := call (git_getCommit w)
                          (GitGetCommit token owner repo ref_sha) in
      let* blob_sha := call (git_createBlob w)
                            (GitCreateBlob token owner repo content "utf-8") in
      let* tree_sha := call (git_createTree w)
                            (GitCreateTree token owner repo commit.2
                               [TreeEntry path "100644" "blob" blob_sha]) in
      let* new_sha := call (git_createCommit w)
                           (GitCreateCommit token owner repo message tree_sha
                              [commit.1]) in
      do* call_ (git_updateRef w)
                (GitUpdateRef token owner repo ("heads/" +:+ branch) new_sha) in
      ret ("Committed to " +:+ owner +:+ "/" +:+ repo +:+ ":" +:+ path)
  end.

(** The [func] of the [sendTelegramNotification] tool. *)
Definition sendTelegramNotification (message : string) : M string :=
  match truthy (env !! "TELEGRAM_BOT_TOKEN"), truthy (env !! "TELEGRAM_CHAT_ID") with
  | Some token, Some chatId =>
      do* call_ (telegram_send w) (TelegramSend token chatId message) in
      ret "Telegram notification sent"
  | _, _ => ret "Missing TELEGRAM_BOT_TOKEN or TELEGRAM_CHAT_ID"
  end.

Definition logToSheet (event action summary : string) : M unit :=
  let range := default "Logs!A:D" (env !! "GOOGLE_SHEETS_RANGE") in
  match truthy (env !! "GOOGLE_SHEETS_ID") with
  | None => ret tt
  | Some spreadsheetId =>
      let* stamp := ask (clock_iso w) in
      appendToSheet spreadsheetId range [[stamp; event; action; summary]]
  end.

Definition runAgent (summary : string) : M string :=
  call (model_invoke w)
       (ModelInvoke openAiModel
          [("system", systemPrompt);
           ("user", "Webhook summary: " +:+ summary +:+ newline
                    +:+ "Decide the next developer action.")]).

Definition buildNewAgentRepo (summary : string) : M string :=
  match truthy (env !! "GITHUB_TOKEN") with
  | None => ret "Missing GITHUB_TOKEN"
  | Some token =>
      match truthy (env !! "GITHUB_OWNER") with
      | None => ret "Missing GITHUB_OWNER"
      | Some owner =>
          let* ms := ask (clock_ms w) in
          let repoName := "agent-" +:+ pretty ms in
          do* call_ (repos_create w)
                    (ReposCreate token repoName
                       "Generated agent scaffold from Linda" true) in
          let scaffold := "# " +:+ repoName +:+ newline +:+ newline
                          +:+ "Generated by Linda. Summary: " +:+ summary
                          +:+ newline in
          do* commitFileToGitHub owner repoName "README.md"
                                 "chore: initial agent scaffold" scaffold "main" in
          ret ("Created new agent repository: " +:+ repoName)
      end
  end.

(** The dispatch step of [handleWebhook]: exactly one of the two
    branches of its [if]. *)
Definition dispatch (action summary : string) : M string :=
  if String.eqb action "build-agent"
  then buildNewAgentRepo summary
  else runAgent summary.

(** The [message] that [handleWebhook] hands to the notifier. *)
Definition notification (action summary result : string) : string :=
  "Linda update: " +:+ action +:+ " completed. Summary: " +:+ summary
  +:+ ". Result: " +:+ result.

Definition handleWebhook (event : string) (payload : value) : M string :=
  let* summary := lift (summarizeEvent event payload) in
  let action := decideAction summary in
  do* logToSheet event action summary in
  let* result := dispatch action summary in
  do* sendTelegramNotification (notification action summary result) in
  ret result.

(** *** [src/index.ts] *)

(** [data += chunk] for every chunk, resolved on ['end'], rejected on
    ['error']. The stream has no encoding set, so that a chunk is a
    [Buffer], which [+=] turns into text on its own. *)
Definition readRawBody (req : Request) : outcome string :=
  match req_error req with
  | Some e => Throw e
  | None => Ok (foldl (fun data chunk => data +:+ Utf8.decode chunk) ""
                      (req_chunks req))
  end.

(** The payload stands for the body [JSON.stringify(payload)]. *)
Definition jsonResponse (status : Z) (payload : value) : M unit :=
  fun _ => (Ok tt, [Respond status "application/json" payload]).

Definition message_body (message : string) : value :=
  VObj [("message", VStr message)].

(** Modelled from the spec: [webhooks.verify] of the webhooks library,
    which is not part of the sources. Per the contract of the Signature
    Verifier it computes the HMAC-SHA256 of the text under the secret
    and compares it with the claimed [sha256=<hex>] header. *)
Definition verify (secret rawBody signature : string) : bool :=
  String.eqb signature ("sha256=" +:+ hmac_sha256_hex w secret rawBody).

Definition JSON_parse (text : string) : outcome value :=
  match json_parse w text with
  | Some v => Ok v
  | None => Throw SyntaxError
  end.

Definition handler (req : Request) : M unit :=
  if negb (String.eqb (req_method req) "POST") then
    jsonResponse 405 (message_body "Method Not Allowed")
  else
  match truthy (env !! "GITHUB_WEBHOOK_SECRET") with
  | None => jsonResponse 500 (message_body "Missing GITHUB_WEBHOOK_SECRET")
  | Some webhookSecret =>
      let* rawBody := lift (readRawBody req) in
      match truthy (req_headers req !! "x-hub-signature-256"),
            truthy (req_headers req !! "x-github-event") with
      | Some signature, Some event =>
          if negb (verify webhookSecret rawBody signature) then
            jsonResponse 401 (message_body "Invalid signature")
          else
          let* payload := lift (JSON_parse rawBody) in
          let* result := handleWebhook event payload in
          jsonResponse 200 (VObj [("status", VStr "ok"); ("result", VStr result)])
      | _, _ => jsonResponse 400 (message_body "Missing GitHub webhook headers")
      end
  end.

(** A request that passed the signature check, with the event type and
    the raw body the pipeline receives. *)
Definition verified (req : Request) (event rawBody : string) : Prop :=
  req_method req = "POST"
  /\ readRawBody req = Ok rawBody
  /\ truthy (req_headers req !! "x-github-event") = Some event
  /\ exists secret signature,
       truthy (env !! "GITHUB_WEBHOOK_SECRET") = Some secret
       /\ truthy (req_headers req !! "x-hub-signature-256") = Some signature
       /\ verify secret rawBody signature = true.

(** What the handler does once the signature is accepted. *)
Definition accepted (event rawBody : string) : M unit :=
  let* payload := lift (JSON_parse rawBody) in
  let* result := handleWebhook event payload in
  jsonResponse 200 (VObj [("status", VStr "ok"); ("result", VStr result)]).

(** A request that reaches the notification step at history [h]: it
    passed the signature check, its body parsed, the summary was
    [summary], the logger completed and the dispatch step returned
    [result]; [t] holds the effects of the logger and of the dispatch. *)
Definition notifies (req : Request) (h : trace)
           (summary result : string) (t : trace) : Prop :=
  exists event rawBody payload t1 t2,
    verified req event rawBody
    /\ JSON_parse rawBody = Ok payload
    /\ summarizeEvent event payload = Ok summary
    /\ logToSheet event (decideAction summary) summary h = (Ok tt, t1)
    /\ dispatch (decideAction summary) summary (h ++ t1) = (Ok result, t2)
    /\ t = t1 ++ t2.

End Program.

(** ** Which effects a computation performs *)

Definition is_response (e : effect) : bool :=
  match e with Respond _ _ _ => true | _ => false end.

Definition is_sheet (e : effect) : bool :=
  match e with SheetsAppend _ _ _ _ _ _ => true | _ => false end.

Definition is_telegram (e : effect) : bool :=
  match e with TelegramSend _ _ _ => true | _ => false end.

(** The calls of the dispatch step: the reasoning backend and the
    repository host. *)
Definition is_dispatch (e : effect) : bool :=
  match e with
  | ModelInvoke _ _ | ReposCreate _ _ _ _ | GitGetRef _ _ _ _
  | GitGetCommit _ _ _ _ | GitCreateBlob _ _ _ _ _ | GitCreateTree _ _ _ _ _
  | GitCreateCommit _ _ _ _ _ _ | GitUpdateRef _ _ _ _ _ => true
  | _ => false
  end.

(** The number of HTTP responses in a trace. *)
Definition responses (t : trace) : nat := List.length (List.filter is_response t).

(** [emits p m]: whatever the history, every effect of [m] satisfies [p]. *)
Definition emits {A} (p : effect -> bool) (m : M A) : Prop :=
  forall h, forallb p (m h).2 = true.

(** Every call to the repository host resolves. *)
Definition host_resolves (w : World) : Prop :=
  (forall h e, repos_create w h e = None)
  /\ (forall h e, exists sha, git_getRef w h e = Ok sha)
  /\ (forall h e, exists commit, git_getCommit w h e = Ok commit)
  /\ (forall h e, exists sha, git_createBlob w h e = Ok sha)
  /\ (forall h e, exists sha, git_createTree w h e = Ok sha)
  /\ (forall h e, exists sha, git_createCommit w h e = Ok sha)
  /\ (forall h e, git_updateRef w h e = None).

(** ** A concrete deployment, for the examples *)

Module Sample.

Definition quoted (s : string) : string := dquote +:+ s +:+ dquote.

(** An issue that asks for a new agent, as text and as parsed. *)
Definition build_body : string :=
  "{" +:+ quoted "issue" +:+ ":{" +:+ quoted "title" +:+ ":"
  +:+ quoted "Build an agent" +:+ "," +:+ quoted "body" +:+ ":"
  +:+ quoted "for metrics" +:+ "}}".
Definition build_payload : value :=
  VObj [("issue", VObj [("title", VStr "Build an agent");
                        ("body", VStr "for metrics")])].

(** A comment that asks for a fix. *)
Definition fix_body : string :=
  "{" +:+ quoted "comment" +:+ ":{" +:+ quoted "body" +:+ ":"
  +:+ quoted "please fix the crash on startup" +:+ "}}".
Definition fix_payload : value :=
  VObj [("comment", VObj [("body", VStr "please fix the crash on startup")])].

Definition digest : string :=
  "9f86d081884c7d659a2feaa0c55ad015a3bf4f1b2b0b822cd15d6c15b0f00a08".

(** A world whose collaborators all answer, except that the tabular
    store and the chat backend answer as told. *)
Definition world (sheets telegram : option error) : World := {|
  hmac_sha256_hex := fun _ _ => digest;
  json_parse := fun text =>
    if String.eqb text build_body then Some build_payload
    else if String.eqb text fix_body then Some fix_payload
    else None;
  clock_iso := fun _ => "2024-05-01T12:00:00.000Z";
  clock_ms := fun _ => 1714564800000%Z;
  sheets_append := fun _ _ => sheets;
  model_invoke := fun _ _ => Ok "Open a pull request that guards the null config.";
  repos_create := fun _ _ => None;
  git_getRef := fun _ _ => Ok "ref0";
  git_getCommit := fun _ _ => Ok ("commit0", "tree0");
  git_createBlob := fun _ _ => Ok "blob1";
  git_createTree := fun _ _ => Ok "tree1";
  git_createCommit := fun _ _ => Ok "commit1";
  git_updateRef := fun _ _ => None;
  telegram_send := fun _ _ => telegram
|}.

Definition env : gmap string string :=
  {[ "GITHUB_WEBHOOK_SECRET" := "s3cret";
     "GITHUB_TOKEN" := "ghp_token";
     "GITHUB_OWNER" := "acme";
     "GOOGLE_SHEETS_ID" := "sheet-1";
     "GOOGLE_CLIENT_EMAIL" := "linda@acme.example";
     "GOOGLE_PRIVATE_KEY" := "key";
     "TELEGRAM_BOT_TOKEN" := "bot-token";
     "TELEGRAM_CHAT_ID" := "42" ]}.

(** The same deployment without the optional destinations. *)
Definition bare_env : gmap string string :=
  {[ "GITHUB_WEBHOOK_SECRET" := "s3cret" ]}.

Definition request (headers : gmap string string) (body : string) : Request := {|
  req_method := "POST";
  req_headers := headers;
  req_chunks := [body];
  req_error := None
|}.

Definition signed (event : string) : gmap string string :=
  {[ "x-hub-signature-256" := "sha256=" +:+ digest; "x-github-event" := event ]}.

Definition forged (event : string) : gmap string string :=
  {[ "x-hub-signature-256" := "sha256=00"; "x-github-event" := event ]}.

(** The signed delivery of the comment, and what the pipeline makes of it. *)
Definition fix_request : Request := request (signed "issue_comment") fix_body.
Definition fix_summary : string := "Issue comment: please fix the crash on startup".
Definition fix_result : string := "Open a pull request that guards the null config.".
Definition fix_log : effect :=
  SheetsAppend "linda@acme.example" "key" "sheet-1" "Logs!A:D" "RAW"
    [["2024-05-01T12:00:00.000Z"; "issue_comment"; "fix-or-feature"; fix_summary]].
Definition fix_prompt : effect :=
  ModelInvoke "gpt-4o-mini"
    [("system", systemPrompt);
     ("user", "Webhook summary: " +:+ fix_summary +:+ newline
              +:+ "Decide the next developer action.")].
Definition fix_message : string :=
  "Linda update: fix-or-feature completed. Summary: Issue comment: please fix the crash on startup. Result: Open a pull request that guards the null config.".
Definition fix_response : effect :=
  Respond 200 "application/json"
    (VObj [("status", VStr "ok"); ("result", VStr fix_result)]).

(** A push whose repository has no name and whose first commit has no
    message. *)
Definition sparse_push : value :=
  VObj [("repository", VObj []);
        ("commits", VArr [VObj []; VObj [("message", VStr "add test")]])].

End Sample.

(** ** The tools outside the pipeline ([src/agent/linda.ts], [src/utils/googleClient.ts]) *)

(** The part of a Google Docs document that [readGoogleDoc] reads. Every
    field is optional in the client's types; [None] stands for an absent
    or [null] field, which [?.] and [??] treat alike. *)
Record text_run : Type := { run_content : option string }.
Record paragraph_element : Type := { el_textRun : option text_run }.
Record paragraph : Type := { par_elements : option (list paragraph_element) }.
Record structural_element : Type := { se_paragraph : option paragraph }.
Record document_body : Type := { body_content : option (list structural_element) }.
Record document : Type := { doc_body : option document_body }.

(** [el.textRun?.content ?? ""] *)
Definition element_text (el : paragraph_element) : string :=
  match el_textRun el with
  | Some run => default "" (run_content run)
  | None => ""
  end.

(** [item.paragraph?.elements?.map(...).join("") ?? ""] *)
Definition item_text (item : structural_element) : string :=
  match se_paragraph item with
  | Some par =>
      match par_elements par with
      | Some elements => JsString.join "" (map element_text elements)
      | None => ""
      end
  | None => ""
  end.


Section Tools.

Variable w : World.
Variable env : gmap string string.
(** [docs.documents.get] of the document store, called with the
    credentials of [getAuth]; it resolves with [response.data] or rejects. *)
Variable documents_get : string -> string -> string -> outcome document.

(** [readGoogleDoc] of [src/utils/googleClient.ts]. *)
Definition readGoogleDoc (documentId : string) : outcome string :=
  obind (getAuth env) (fun auth =>
  obind (documents_get auth.1 auth.2 documentId) (fun data =>
  let content := match doc_body data with
                 | Some body => default [] (body_content body)
                 | None => []
                 end in
  Ok (JsString.trim (JsString.join "" (map item_text content))))).


(** The [func] of the [writeToGoogleSheet] tool. *)
Definition writeToGoogleSheet (spreadsheetId range : string)
                              (values : list string) : M string :=
  do* appendToSheet w env spreadsheetId range [values] in
  ret "Sheet updated".

End Tools.

(** ** Vocabulary of the further properties *)

(** A text that begins, or ends, with white space. *)
Definition starts_blank (s : string) : bool :=
  match s with
  | String c _ => JsString.is_blank c
  | EmptyString => false
  end.

Fixpoint ends_blank (s : string) : bool :=
  match s with
  | EmptyString => false
  | String c EmptyString => JsString.is_blank c
  | String _ r => ends_blank r
  end.

Fixpoint all_blank (s : string) : bool :=
  match s with
  | EmptyString => true
  | String c r => JsString.is_blank c && all_blank r
  end.

Definition is_model (e : effect) : bool :=
  match e with ModelInvoke _ _ => true | _ => false end.

(** The calls to the repository host. *)
Definition is_host (e : effect) : bool :=
  is_dispatch e && negb (is_model e).

(** The client method behind a call to the repository host. *)
Definition call_name (e : effect) : string :=
  match e with
  | ReposCreate _ _ _ _ => "repos.createForAuthenticatedUser"
  | GitGetRef _ _ _ _ => "git.getRef"
  | GitGetCommit _ _ _ _ => "git.getCommit"
  | GitCreateBlob _ _ _ _ _ => "git.createBlob"
  | GitCreateTree _ _ _ _ _ => "git.createTree"
  | GitCreateCommit _ _ _ _ _ _ => "git.createCommit"
  | GitUpdateRef _ _ _ _ _ => "git.updateRef"
  | _ => ""
  end.

(** The calls of a scaffold, in the order of the code. *)
Definition scaffold_calls : list string :=
  ["repos.createForAuthenticatedUser"; "git.getRef"; "git.getCommit";
   "git.createBlob"; "git.createTree"; "git.createCommit"; "git.updateRef"].

(** The order of a request's effects: at most one log row, then the
    calls of the dispatch step, then at most one chat message, then at
    most one response. *)
Definition pipeline_order (t : trace) : Prop :=
  exists logged dispatched notified responded,
    t = logged ++ dispatched ++ notified ++ responded
    /\ forallb is_sheet logged = true /\ List.length logged <= 1
    /\ forallb is_dispatch dispatched = true
    /\ forallb is_telegram notified = true /\ List.length notified <= 1
    /\ forallb is_response responded = true /\ List.length responded <= 1.

(** ** Further vocabulary and samples *)

Definition line_feed : ascii := ascii_of_nat 10.

(** The escaped line feed that [getAuth] replaces: a backslash, then [n]. *)
Definition escaped : string := "\n".

(** The text runs of a document in reading order: the defined contents
    of the runs of the elements of its paragraphs. *)
Definition element_runs (el : paragraph_element) : list string :=
  match el_textRun el with
  | Some run => match run_content run with Some text => [text] | None => [] end
  | None => []
  end.

Definition item_runs (item : structural_element) : list string :=
  match se_paragraph item with
  | Some par =>
      match par_elements par with
      | Some elements => flat_map element_runs elements
      | None => []
      end
  | None => []
  end.

Definition document_runs (data : document) : list string :=
  match doc_body data with
  | Some body => flat_map item_runs (default [] (body_content body))
  | None => []
  end.

(** A world like the sample one whose reasoning backend rejects. *)
Definition failing_model_world : World := {|
  hmac_sha256_hex := hmac_sha256_hex (Sample.world None None);
  json_parse := json_parse (Sample.world None None);
  clock_iso := clock_iso (Sample.world None None);
  clock_ms := clock_ms (Sample.world None None);
  sheets_append := sheets_append (Sample.world None None);
  model_invoke := fun _ _ => Throw (Rejected "rate limit");
  repos_create := repos_create (Sample.world None None);
  git_getRef := git_getRef (Sample.world None None);
  git_getCommit := git_getCommit (Sample.world None None);
  git_createBlob := git_createBlob (Sample.world None None);
  git_createTree := git_createTree (Sample.world None None);
  git_createCommit := git_createCommit (Sample.world None None);
  git_updateRef := git_updateRef (Sample.world None None);
  telegram_send := telegram_send (Sample.world None None)
|}.

(** The text [caf\u00e9!] as the bytes that travel, cut inside its
    two-byte character. *)
Definition cafe_head : string := "caf" +:+ String (ascii_of_nat 195) "".
Definition cafe_tail : string := String (ascii_of_nat 169) "!".

(** A world like the sample one whose digest tells texts apart. *)
Definition keyed_world : World := {|
  hmac_sha256_hex := fun secret text => secret +:+ "/" +:+ text;
  json_parse := json_parse (Sample.world None None);
  clock_iso := clock_iso (Sample.world None None);
  clock_ms := clock_ms (Sample.world None None);
  sheets_append := sheets_append (Sample.world None None);
  model_invoke := model_invoke (Sample.world None None);
  repos_create := repos_create (Sample.world None None);
  git_getRef := git_getRef (Sample.world None None);
  git_getCommit := git_getCommit (Sample.world None None);
  git_createBlob := git_createBlob (Sample.world None None);
  git_createTree := git_createTree (Sample.world None None);
  git_createCommit := git_createCommit (Sample.world None None);
  git_updateRef := git_updateRef (Sample.world None None);
  telegram_send := telegram_send (Sample.world None None)
|}.

(** The delivery of those bytes in two chunks, with the signature of
    the bytes. *)
Definition split_request : Request := {|
  req_method := "POST";
  req_headers :=
    {[ "x-hub-signature-256" :=
         "sha256=" +:+ hmac_sha256_hex keyed_world "s3cret" (cafe_head +:+ cafe_tail);
       "x-github-event" := "push" ]};
  req_chunks := [cafe_head; cafe_tail];
  req_error := None
|}.

(** A document with a heading split over runs, a table and a last line. *)
Definition sample_document : document :=
  {| doc_body := Some {| body_content := Some
       [ {| se_paragraph := Some {| par_elements := Some
              [ {| el_textRun := Some {| run_content := Some "  Design" |} |};
                {| el_textRun := None |};
                {| el_textRun := Some {| run_content := None |} |};
                {| el_textRun := Some {| run_content := Some " notes" |} |} ] |} |};
         {| se_paragraph := None |};
         {| se_paragraph := Some {| par_elements := None |} |};
         {| se_paragraph := Some {| par_elements := Some
              [ {| el_textRun := Some {| run_content := Some (newline +:+ "v2 ") |} |} ] |} |}
       ] |} |}.

Definition sample_documents (email key documentId : string) : outcome document :=
  if String.eqb documentId "doc-1" then Ok sample_document
  else Throw (Rejected "not found").

(** * Properties *)

Example summarize_push :
  summarizeEvent "push"
    (VObj [("repository", VObj [("full_name", VStr "acme/widgets")]);
           ("commits", VArr [VObj [("message", VStr "fix bug")];
                             VObj [("message", VStr "add test")]])])
  = Ok "Push to acme/widgets: fix bug | add test".
Proof. reflexivity. Qed.

Example summarize_issue_blank :
  summarizeEvent "issues" (VObj []) = Ok "Issue:".
Proof. reflexivity. Qed.

Example decide_upper : decideAction "BUILD AN AGENT now" = "build-agent".
Proof. reflexivity. Qed.

Example decide_fix : decideAction "fix the login bug" = "fix-or-feature".
Proof. reflexivity. Qed.

(** ** Properties of the string operations *)

Module JsStringFacts.
Import JsString.

Lemma startsWith_spec s p :
  startsWith s p = true <-> exists r, s = p +:+ r.
Proof.
  revert s. induction p as [|a p IH]; intros s; simpl.
  - split; [intros _; now exists s | reflexivity].
  - destruct s as [|b s].
    + split; [discriminate | intros [r Hr]; discriminate].
    + destruct (Ascii.eqb_spec a b) as [->|Hne].
      * rewrite IH. split; intros [r Hr]; exists r.
        -- now rewrite Hr.
        -- now injection Hr.
      * split; [discriminate | intros [r Hr]; injection Hr; congruence].
Qed.

Lemma includes_spec s p :
  includes s p = true <-> exists l r, s = l +:+ p +:+ r.
Proof.
  induction s as [|c s IH]; simpl.
  - rewrite orb_false_r, startsWith_spec. split.
    + intros [r Hr]. now exists "", r.
    + intros [l [r Hr]]. destruct l; [now exists r | discriminate].
  - rewrite orb_true_iff, startsWith_spec, IH. split.
    + intros [[r Hr] | [l [r Hr]]].
      * now exists "", r.
      * exists (String c l), r. simpl. now rewrite Hr.
    + intros [l [r Hr]]. destruct l as [|c' l].
      * left. now exists r.
      * right. simpl in Hr. injection Hr as _ Hr. now exists l, r.
Qed.

(** Only the capital letters change, each to the letter 32 places on. *)
Lemma lower_char_spec (c : ascii) :
  let n := nat_of_ascii c in
  nat_of_ascii (lower_char c)
  = if (65 <=? n)%nat && (n <=? 90)%nat then (n + 32)%nat else n.
Proof.
  destruct c as [[] [] [] [] [] [] [] []]; vm_compute; reflexivity.
Qed.

Lemma toLowerCase_length s :
  String.length (toLowerCase s) = String.length s.
Proof. induction s; simpl; congruence. Qed.

Lemma toLowerCase_idem s :
  toLowerCase (toLowerCase s) = toLowerCase s.
Proof.
  induction s as [|c s IH]; simpl; [reflexivity|]. rewrite IH. f_equal.
  destruct c as [[] [] [] [] [] [] [] []]; vm_compute; reflexivity.
Qed.

End JsStringFacts.

Lemma get_opt_shaped (p : value -> bool) (v : option value) (k : string) :
  absent_or p v = true ->
  (forall x, p x = true -> exists fields, x = VObj fields) ->
  Js.get_opt v k = Ok (field v k).
Proof.
  intros Hv Hp. destruct v as [x|]; [|reflexivity].
  destruct x; try reflexivity; simpl in Hv;
    destruct (Hp _ Hv) as [fs Hfs]; discriminate.
Qed.

Lemma has_text_obj (k : string) (x : value) : has_text k x = true -> exists fields, x = VObj fields.
Proof. destruct x; try discriminate. eauto. Qed.

Lemma toString_text (d : string) (v : option value) :
  absent_or is_text v = true ->
  Js.toString (Js.nullish v (VStr d)) = Ok (text_or d v).
Proof. destruct v as [[]|]; simpl; try discriminate; reflexivity. Qed.

Lemma text_field (k : string) (o : option value) :
  absent_or (has_text k) o = true ->
  absent_or is_text (field o k) = true.
Proof.
  destruct o as [x|]; [|reflexivity].
  destruct x; simpl; try discriminate; auto.
Qed.

Lemma messages_shaped (items : list value) :
  forallb (has_text "message") items = true ->
  Js.sequence (map (fun c => Js.get (Some c) "message") items)
  = Ok (map (fun c => field (Some c) "message") items).
Proof.
  induction items as [|c items IH]; [reflexivity|].
  cbn [forallb]. rewrite andb_true_iff. intros [Hc Hr].
  cbn [map Js.sequence]. rewrite (IH Hr).
  destruct (has_text_obj _ _ Hc) as [fs ->]. reflexivity.
Qed.

Lemma join_shaped (sep : string) (items : list value) :
  forallb (has_text "message") items = true ->
  Js.join sep (map (fun c => field (Some c) "message") items)
  = Ok (JsString.join sep (map (fun c => text_or "" (field (Some c) "message")) items)).
Proof.
  intros H. unfold Js.join.
  assert (Js.sequence (map Js.show_item (map (fun c => field (Some c) "message") items))
          = Ok (map (fun c => text_or "" (field (Some c) "message")) items)) as ->;
    [|reflexivity].
  induction items as [|c items IH]; [reflexivity|].
  cbn [forallb] in H. apply andb_true_iff in H as [Hc Hr].
  cbn [map Js.sequence]. rewrite (IH Hr).
  destruct c; try discriminate. simpl in Hc |- *.
  destruct (Js.own fields "message") as [[]|]; simpl in Hc |- *;
    try discriminate; reflexivity.
Qed.

(** ** The classifier *)

Lemma decideAction_range (summary : string) :
  decideAction summary = "build-agent" \/ decideAction summary = "fix-or-feature".
Proof. unfold decideAction. destruct (_ || _); auto. Qed.

(** C5. The Action Classifier is a total function of the summary alone;
    it answers ["build-agent"] exactly when the lower-cased summary
    contains ["build an agent"] or ["generate a new agent"] as a substring,
    and ["fix-or-feature"] in every other case. *)
Theorem decideAction_spec (summary : string) :
  let lowered := JsString.toLowerCase summary in
  let asks := (exists l r, lowered = l +:+ "build an agent" +:+ r)
              \/ (exists l r, lowered = l +:+ "generate a new agent" +:+ r) in
  (decideAction summary = "build-agent" <-> asks)
  /\ (decideAction summary = "fix-or-feature" <-> ~ asks)
  /\ (decideAction summary = "build-agent" \/ decideAction summary = "fix-or-feature").
Proof.
  intros lowered asks.
  assert (Hb : JsString.includes lowered "build an agent"
               || JsString.includes lowered "generate a new agent" = true <-> asks).
  { unfold asks. now rewrite orb_true_iff, !JsStringFacts.includes_spec. }
  unfold decideAction. fold lowered.
  destruct (JsString.includes lowered "build an agent"
            || JsString.includes lowered "generate a new agent").
  - repeat split; auto; try discriminate.
    + intros _. now apply Hb.
    + intros Hn. exfalso. apply Hn. now apply Hb.
  - repeat split; auto; try discriminate.
    + intros Ha. apply Hb in Ha. discriminate.
    + intros _ Ha. apply Hb in Ha. discriminate.
Qed.

Example decide_polite : decideAction "please build an agent for X" = "build-agent".
Proof. reflexivity. Qed.

(** ** The summarizer *)

(** C6. The Event Summarizer is a function of the event type and the
    payload: as a step of the pipeline it performs no effect and gives the
    same outcome whatever the history; on the push of two commits to
    acme/widgets the summary is ["Push to acme/widgets: fix bug | add test"]. *)
Theorem summarizeEvent_pure :
  (forall event payload (h1 h2 : trace),
      lift (summarizeEvent event payload) h1 = (summarizeEvent event payload, [])
      /\ lift (summarizeEvent event payload) h1
         = lift (summarizeEvent event payload) h2)
  /\ summarizeEvent "push"
       (VObj [("repository", VObj [("full_name", VStr "acme/widgets")]);
              ("commits", VArr [VObj [("message", VStr "fix bug")];
                                VObj [("message", VStr "add test")]])])
     = Ok "Push to acme/widgets: fix bug | add test".
Proof. split; [intros; split; reflexivity | reflexivity]. Qed.

(** C4, as the claim states it, fails: a [commits] field that is not an
    array makes the summarizer raise, and an absent repository is
    rendered as ["unknown"], neither empty nor omitted. *)
Lemma summarizeEvent_raises :
  summarizeEvent "push" (VObj [("commits", VStr "none")]) = Throw TypeError
  /\ summarizeEvent "push" (VObj [("commits", VArr [])]) = Ok "Push to unknown: ".
Proof. split; reflexivity. Qed.

Example summarize_null_commit :
  summarizeEvent "push" (VObj [("commits", VArr [VNull])]) = Throw TypeError.
Proof. reflexivity. Qed.

Example summarize_null_payload :
  summarizeEvent "issues" VNull = Throw TypeError.
Proof. reflexivity. Qed.

Example summarize_no_commits :
  summarizeEvent "push" (VObj []) = Ok "Push to unknown: undefined".
Proof. reflexivity. Qed.

(** C4, amended. On a payload of the declared shapes the summarizer never
    raises, for any event type; an absent repository name reads
    ["unknown"], an absent commit message is an empty item of the joined
    list, an absent issue title, issue body or comment body is the empty
    string. *)
Theorem summarizeEvent_shaped (event : string) (payload : value) :
  shaped payload = true ->
  let repository := field (Some payload) "repository" in
  let issue := field (Some payload) "issue" in
  let comment := field (Some payload) "comment" in
  (exists summary, summarizeEvent event payload = Ok summary)
  /\ (forall items,
        event = "push" ->
        field (Some payload) "commits" = Some (VArr items) ->
        summarizeEvent event payload
        = Ok ("Push to " +:+ text_or "unknown" (field repository "full_name") +:+ ": "
              +:+ JsString.join " | "
                    (map (fun c => text_or "" (field (Some c) "message")) items)))
  /\ (event = "issues" ->
      summarizeEvent event payload
      = Ok (JsString.trim ("Issue: " +:+ text_or "" (field issue "title") +:+ " "
                           +:+ text_or "" (field issue "body"))))
  /\ (event = "issue_comment" ->
      summarizeEvent event payload
      = Ok (JsString.trim ("Issue comment: " +:+ text_or "" (field comment "body")))).
Proof.
  intros Hs repository issue comment.
  destruct payload as [| | | | |fields]; try discriminate.
  cbn [shaped] in Hs. rewrite !andb_true_iff in Hs.
  destruct Hs as [[[Hrepo Hcommits] Hissue] Hcomment].
  (* the repository name *)
  assert (Hname : obind (Js.get_opt (Js.own fields "repository") "full_name")
                    (fun full_name => Js.toString (Js.nullish full_name (VStr "unknown")))
                  = Ok (text_or "unknown" (field repository "full_name"))).
  { rewrite (get_opt_shaped _ _ "full_name" Hrepo (has_text_obj _)).
    cbn [obind]. apply toString_text, text_field, Hrepo. }
  assert (Hpush : summarizeEvent "push" (VObj fields)
                  = obind (joined_messages (Js.own fields "commits")) (fun joined =>
                    obind (Js.show joined) (fun msgs =>
                    Ok ("Push to " +:+ text_or "unknown" (field repository "full_name")
                        +:+ ": " +:+ msgs)))).
  { change (summarizeEvent "push" (VObj fields))
      with (obind (Js.get_opt (Js.own fields "repository") "full_name") (fun full_name =>
            obind (Js.toString (Js.nullish full_name (VStr "unknown"))) (fun name =>
            obind (joined_messages (Js.own fields "commits")) (fun joined =>
            obind (Js.show joined) (fun msgs =>
            Ok ("Push to " +:+ name +:+ ": " +:+ msgs)))))).
    revert Hname.
    destruct (Js.get_opt (Js.own fields "repository") "full_name") as [full_name|];
      cbn [obind]; [|discriminate].
    now intros ->. }
  assert (Hitems : forall items,
             Js.own fields "commits" = Some (VArr items) ->
             summarizeEvent "push" (VObj fields)
             = Ok ("Push to " +:+ text_or "unknown" (field repository "full_name") +:+ ": "
                   +:+ JsString.join " | "
                         (map (fun c => text_or "" (field (Some c) "message")) items))).
  { intros items Hc. rewrite Hpush, Hc. rewrite Hc in Hcommits.
    cbn [absent_or is_commits] in Hcommits.
    unfold joined_messages, commit_messages.
    rewrite (messages_shaped _ Hcommits). cbn [obind].
    rewrite (join_shaped _ _ Hcommits). reflexivity. }
  assert (Ht : absent_or (has_text "title") (Js.own fields "issue") = true).
  { destruct (Js.own fields "issue") as [x|]; [|reflexivity].
    destruct x; cbn [absent_or] in *; auto. now apply andb_true_iff in Hissue. }
  assert (Hb : absent_or (has_text "body") (Js.own fields "issue") = true).
  { destruct (Js.own fields "issue") as [x|]; [|reflexivity].
    destruct x; cbn [absent_or] in *; auto. now apply andb_true_iff in Hissue. }
  assert (Hissues : summarizeEvent "issues" (VObj fields)
                    = Ok (JsString.trim ("Issue: " +:+ text_or "" (field issue "title")
                                         +:+ " " +:+ text_or "" (field issue "body")))).
  { change (summarizeEvent "issues" (VObj fields))
      with (obind (Js.get_opt (Js.own fields "issue") "title") (fun title =>
            obind (Js.toString (Js.nullish title (VStr ""))) (fun title_s =>
            obind (Js.get_opt (Js.own fields "issue") "body") (fun body =>
            obind (Js.toString (Js.nullish body (VStr ""))) (fun body_s =>
            Ok (JsString.trim ("Issue: " +:+ title_s +:+ " " +:+ body_s))))))).
    rewrite (get_opt_shaped _ _ "title" Ht (has_text_obj _)). cbn [obind].
    rewrite (toString_text "" _ (text_field _ _ Ht)). cbn [obind].
    rewrite (get_opt_shaped _ _ "body" Hb (has_text_obj _)). cbn [obind].
    rewrite (toString_text "" _ (text_field _ _ Hb)). reflexivity. }
  assert (Hcomm : summarizeEvent "issue_comment" (VObj fields)
                  = Ok (JsString.trim ("Issue comment: "
                                       +:+ text_or "" (field comment "body")))).
  { change (summarizeEvent "issue_comment" (VObj fields))
      with (obind (Js.get_opt (Js.own fields "comment") "body") (fun body =>
            obind (Js.toString (Js.nullish body (VStr ""))) (fun body_s =>
            Ok (JsString.trim ("Issue comment: " +:+ body_s))))).
    rewrite (get_opt_shaped _ _ "body" Hcomment (has_text_obj _)). cbn [obind].
    rewrite (toString_text "" _ (text_field _ _ Hcomment)). reflexivity. }
  split; [|split; [|split]].
  - destruct (String.eqb_spec event "push") as [->|Hp].
    + destruct (Js.own fields "commits") as [c|] eqn:Hc.
      * destruct c; cbn [absent_or is_commits] in Hcommits; try discriminate.
        -- rewrite Hpush. cbn. eauto.
        -- rewrite (Hitems _ eq_refl). eauto.
      * rewrite Hpush. cbn. eauto.
    + destruct (String.eqb_spec event "issues") as [->|Hi]; [eauto|].
      destruct (String.eqb_spec event "issue_comment") as [->|Hc]; [eauto|].
      unfold summarizeEvent.
      apply String.eqb_neq in Hp, Hi, Hc. rewrite Hp, Hi, Hc. eauto.
  - intros items -> Hc. now apply Hitems.
  - now intros ->.
  - now intros ->.
Qed.

Lemma summarizeEvent_shaped_witness :
  shaped Sample.sparse_push = true
  /\ summarizeEvent "push" Sample.sparse_push = Ok "Push to unknown:  | add test".
Proof.
  split; [reflexivity|].
  destruct (summarizeEvent_shaped "push" Sample.sparse_push eq_refl) as (_ & Hpush & _).
  exact (Hpush _ eq_refl eq_refl).
Defined.

Section Emits.
Context {A B : Type} (p : effect -> bool).

Lemma emits_ret (a : A) : emits p (ret a).
Proof. intros h. reflexivity. Qed.

Lemma emits_lift (x : outcome A) : emits p (lift x).
Proof. intros h. reflexivity. Qed.

Lemma emits_ask (f : trace -> A) : emits p (ask f).
Proof. intros h. reflexivity. Qed.

Lemma emits_call (answer : trace -> effect -> outcome A) (e : effect) :
  p e = true -> emits p (call answer e).
Proof. intros He h. simpl. now rewrite He. Qed.

Lemma emits_call_ (answer : trace -> effect -> option error) (e : effect) :
  p e = true -> emits p (call_ answer e).
Proof. intros He h. simpl. now rewrite He. Qed.

Lemma emits_bind (m : M A) (k : A -> M B) :
  emits p m -> (forall a, emits p (k a)) -> emits p (bind m k).
Proof.
  intros Hm Hk h. unfold bind. specialize (Hm h).
  destruct (m h) as [[a|e] t1]; [|exact Hm].
  specialize (Hk a (h ++ t1)).
  destruct (k a (h ++ t1)) as [r t2]. simpl in *.
  rewrite forallb_app. now rewrite Hm, Hk.
Qed.

Lemma emits_weaken (q : effect -> bool) (m : M A) :
  (forall e, q e = true -> p e = true) -> emits q m -> emits p m.
Proof.
  intros Hqp Hm h. specialize (Hm h).
  rewrite forallb_forall in *. auto.
Qed.
End Emits.

Create HintDb emits.
#[export] Hint Resolve emits_ret emits_lift emits_ask : emits.
#[export] Hint Extern 2 (emits _ (bind _ _)) => apply emits_bind; [|intros ?] : emits.
#[export] Hint Extern 2 (emits _ (call _ _)) => apply emits_call; reflexivity : emits.
#[export] Hint Extern 2 (emits _ (call_ _ _)) => apply emits_call_; reflexivity : emits.

(** Enters the handler of a POST request to a configured deployment. *)
Ltac enter_handler Hmethod Hsecret :=
  unfold handler; rewrite Hmethod, Hsecret;
  change (String.eqb "POST" "POST") with true; cbn [negb].

Section Pipeline.
Variable w : World.
Variable env : gmap string string.

Lemma logToSheet_emits event action summary :
  emits is_sheet (logToSheet w env event action summary).
Proof.
  unfold logToSheet, appendToSheet.
  destruct (truthy (env !! "GOOGLE_SHEETS_ID")); auto 10 with emits.
Qed.

Lemma commitFileToGitHub_emits owner repo path message content branch :
  emits is_dispatch (commitFileToGitHub w env owner repo path message content branch).
Proof.
  unfold commitFileToGitHub.
  destruct (truthy (env !! "GITHUB_TOKEN")); auto 20 with emits.
Qed.

Lemma dispatch_emits action summary :
  emits is_dispatch (dispatch w env action summary).
Proof.
  unfold dispatch, buildNewAgentRepo, runAgent.
  pose proof commitFileToGitHub_emits.
  destruct (String.eqb action "build-agent"); [|auto with emits].
  destruct (truthy (env !! "GITHUB_TOKEN")); [|auto with emits].
  destruct (truthy (env !! "GITHUB_OWNER")); auto 20 with emits.
Qed.

Lemma sendTelegramNotification_emits message :
  emits is_telegram (sendTelegramNotification w env message).
Proof.
  unfold sendTelegramNotification.
  destruct (truthy (env !! "TELEGRAM_BOT_TOKEN")),
           (truthy (env !! "TELEGRAM_CHAT_ID")); auto 10 with emits.
Qed.

(** The pipeline never writes to the HTTP response itself. *)
Lemma handleWebhook_emits event payload :
  emits (fun e => negb (is_response e)) (handleWebhook w env event payload).
Proof.
  unfold handleWebhook.
  apply emits_bind; [auto with emits | intros summary].
  apply emits_bind; [| intros _].
  { eapply emits_weaken; [|apply logToSheet_emits]. now intros []. }
  apply emits_bind; [| intros result].
  { eapply emits_weaken; [|apply dispatch_emits]. now intros []. }
  apply emits_bind; [| intros _; auto with emits].
  eapply emits_weaken; [|apply sendTelegramNotification_emits]. now intros [].
Qed.

Lemma no_response_count (t : trace) :
  forallb (fun e => negb (is_response e)) t = true -> responses t = 0.
Proof.
  unfold responses. induction t as [|e t IH]; simpl; [reflexivity|].
  rewrite andb_true_iff. intros [He Ht].
  destruct (is_response e); [discriminate | auto].
Qed.

Lemma responses_app (t1 t2 : trace) :
  responses (t1 ++ t2) = responses t1 + responses t2.
Proof. unfold responses. now rewrite List.filter_app, length_app. Qed.

Lemma handler_verified req event rawBody h :
  verified w env req event rawBody ->
  handler w env req h = accepted w env event rawBody h.
Proof.
  intros (Hm & Hbody & Hev & secret & signature & Hsec & Hsig & Hv).
  enter_handler Hm Hsec.
  unfold bind at 1. rewrite Hbody. cbn [lift].
  rewrite Hsig, Hev, Hv. cbn [negb app].
  rewrite app_nil_r. fold (accepted w env event rawBody).
  now destruct (accepted w env event rawBody h).
Qed.

End Pipeline.

(** ** The request handler *)

Section Handler.
Variable w : World.
Variable env : gmap string string.

Lemma truthy_None_absent (x : option string) : x = None -> truthy x = None.
Proof. now intros ->. Qed.

(** C8. A POST request to a configured handler that lacks the signature
    header or the event-type header is answered 400, and the response is
    the only effect: no log write, no dispatch, no notification. *)
Theorem handler_missing_headers (req : Request) (h : trace) (secret : string) :
  req_method req = "POST" ->
  truthy (env !! "GITHUB_WEBHOOK_SECRET") = Some secret ->
  req_error req = None ->
  req_headers req !! "x-hub-signature-256" = None
  \/ req_headers req !! "x-github-event" = None ->
  handler w env req h
  = (Ok tt, [Respond 400 "application/json"
               (message_body "Missing GitHub webhook headers")]).
Proof.
  intros Hm Hsec Herr Hmissing.
  enter_handler Hm Hsec.
  unfold bind, readRawBody. rewrite Herr. cbn [lift].
  destruct Hmissing as [H | H]; rewrite (truthy_None_absent _ H).
  - reflexivity.
  - now destruct (truthy (req_headers req !! "x-hub-signature-256")).
Qed.

Lemma append_inj_l (p a b : string) : p +:+ a = p +:+ b -> a = b.
Proof.
  induction p as [|c p IH]; intros H; [exact H|].
  change (String c (p +:+ a) = String c (p +:+ b)) in H.
  injection H as H. now apply IH.
Qed.

(** What the signature check decides. A POST request to a configured
    handler that carries both headers is answered 401, with the response
    as its only effect, when the signature header differs from the
    HMAC-SHA256 header, under the shared secret, of the text that
    [readRawBody] assembled; when it agrees, no 401 is sent, whatever the
    parser makes of the text. *)
Lemma handler_signature_check (req : Request) (h : trace)
      (secret signature event rawBody : string) :
  req_method req = "POST" ->
  truthy (env !! "GITHUB_WEBHOOK_SECRET") = Some secret ->
  readRawBody req = Ok rawBody ->
  truthy (req_headers req !! "x-hub-signature-256") = Some signature ->
  truthy (req_headers req !! "x-github-event") = Some event ->
  (signature <> "sha256=" +:+ hmac_sha256_hex w secret rawBody ->
   handler w env req h
   = (Ok tt, [Respond 401 "application/json" (message_body "Invalid signature")]))
  /\ (signature = "sha256=" +:+ hmac_sha256_hex w secret rawBody ->
      forall contentType payload,
        ~ In (Respond 401 contentType payload) (handler w env req h).2).
Proof.
  intros Hm Hsec Hbody Hsig Hev. split.
  - intros Hne. enter_handler Hm Hsec.
    unfold bind. rewrite Hbody. cbn [lift].
    rewrite Hsig, Hev. unfold verify.
    apply String.eqb_neq in Hne. now rewrite Hne.
  - intros Heq contentType payload Hin.
    assert (Hv : verified w env req event rawBody).
    { unfold verified. repeat split; auto.
      exists secret, signature. repeat split; auto.
      unfold verify. now apply String.eqb_eq. }
    rewrite (handler_verified _ _ _ _ _ h Hv) in Hin.
    unfold accepted, bind in Hin. cbn [lift] in Hin.
    destruct (JSON_parse w rawBody) as [p|e]; [|exact Hin].
    pose proof (handleWebhook_emits w env event p (h ++ [])) as Hquiet.
    destruct (handleWebhook w env event p (h ++ [])) as [[result|e] t];
      cbn [snd app jsonResponse] in *.
    + apply in_app_or in Hin as [Hin | [Hin | []]]; [|discriminate].
      rewrite forallb_forall in Hquiet. now apply Hquiet in Hin.
    + rewrite forallb_forall in Hquiet. now apply Hquiet in Hin.
Qed.

(** C7. The signature is checked against the text that [readRawBody]
    assembles, which need not be the bytes of the body. A POST request to
    a configured handler that carries the event-type header and, as its
    signature header, the HMAC-SHA256 header of the bytes of its body
    under the shared secret is answered 401, with the response as its
    only effect, whenever the digest of the assembled text is not the
    digest of those bytes. *)
Theorem handler_rejects_signed_bytes (req : Request) (h : trace)
        (secret event rawBody : string) :
  req_method req = "POST" ->
  truthy (env !! "GITHUB_WEBHOOK_SECRET") = Some secret ->
  truthy (req_headers req !! "x-github-event") = Some event ->
  truthy (req_headers req !! "x-hub-signature-256")
  = Some ("sha256=" +:+ hmac_sha256_hex w secret (String.concat "" (req_chunks req))) ->
  readRawBody req = Ok rawBody ->
  hmac_sha256_hex w secret rawBody
  <> hmac_sha256_hex w secret (String.concat "" (req_chunks req)) ->
  handler w env req h
  = (Ok tt, [Respond 401 "application/json" (message_body "Invalid signature")]).
Proof.
  intros Hm Hsec Hev Hsig Hbody Hne.
  apply (handler_signature_check req h secret _ event rawBody Hm Hsec Hbody Hsig Hev).
  intros Heq. apply append_inj_l in Heq. now symmetry in Heq.
Qed.

(** C2, amended. For a request that passed the signature check the
    handler parses the raw body and runs the pipeline, and when the
    pipeline returns a result it answers 200 with [status] "ok" and that
    result, after the effects of the pipeline. Every run of the handler
    sends exactly one response when it completes and none when it fails. *)
Theorem handler_responds (req : Request) (h : trace) :
  (forall event rawBody,
      verified w env req event rawBody ->
      handler w env req h = accepted w env event rawBody h
      /\ forall payload result t,
          JSON_parse w rawBody = Ok payload ->
          handleWebhook w env event payload h = (Ok result, t) ->
          handler w env req h
          = (Ok tt, t ++ [Respond 200 "application/json"
                            (VObj [("status", VStr "ok"); ("result", VStr result)])]))
  /\ responses (handler w env req h).2
     = (if returns (handler w env req h).1 then 1 else 0).
Proof.
  split.
  - intros event rawBody Hv. split; [now apply handler_verified|].
    intros payload result t Hp Hr.
    rewrite (handler_verified _ _ _ _ _ h Hv).
    unfold accepted, bind. rewrite Hp. cbn [lift].
    rewrite app_nil_r, Hr. reflexivity.
  - unfold handler.
    destruct (negb (String.eqb (req_method req) "POST")); [reflexivity|].
    destruct (truthy (env !! "GITHUB_WEBHOOK_SECRET")) as [secret|]; [|reflexivity].
    unfold bind. cbn [lift].
    destruct (readRawBody req) as [rawBody|e]; [|reflexivity].
    destruct (truthy (req_headers req !! "x-hub-signature-256")) as [signature|];
      [|reflexivity].
    destruct (truthy (req_headers req !! "x-github-event")) as [event|];
      [|reflexivity].
    destruct (negb (verify w secret rawBody signature)); [reflexivity|].
    destruct (JSON_parse w rawBody) as [p|e]; [|reflexivity].
    pose proof (handleWebhook_emits w env event p ((h ++ []) ++ [])) as Hquiet.
    apply no_response_count in Hquiet.
    destruct (handleWebhook w env event p ((h ++ []) ++ [])) as [[result|e] t];
      cbn [fst snd app jsonResponse returns] in *.
    + rewrite responses_app, Hquiet. reflexivity.
    + exact Hquiet.
Qed.

End Handler.

(** C2 fails as stated: a request with a valid signature whose body is not
    JSON gets no response from the handler, which fails with the parser's
    error. *)
Lemma handler_unparseable_no_response :
  verified (Sample.world None None) Sample.env
           (Sample.request (Sample.signed "issue_comment") "not json")
           "issue_comment" "not json"
  /\ handler (Sample.world None None) Sample.env
             (Sample.request (Sample.signed "issue_comment") "not json") []
     = (Throw SyntaxError, []).
Proof.
  split; [|vm_compute; reflexivity].
  repeat split.
  exists "s3cret", ("sha256=" +:+ Sample.digest).
  repeat split; vm_compute; reflexivity.
Qed.

Lemma handler_missing_headers_witness :
  handler (Sample.world None None) Sample.env
          (Sample.request {[ "x-github-event" := "push" ]} Sample.fix_body) []
  = (Ok tt, [Respond 400 "application/json"
               (message_body "Missing GitHub webhook headers")]).
Proof.
  apply (handler_missing_headers _ _ _ _ "s3cret");
    [reflexivity | vm_compute; reflexivity | reflexivity | left; vm_compute; reflexivity].
Defined.

Lemma handler_rejects_signed_bytes_witness :
  readRawBody split_request
  = Ok ("caf" +:+ Utf8.replacement +:+ Utf8.replacement +:+ "!")
  /\ handler keyed_world Sample.env split_request []
     = (Ok tt, [Respond 401 "application/json" (message_body "Invalid signature")]).
Proof.
  split; [vm_compute; reflexivity|].
  apply (handler_rejects_signed_bytes keyed_world Sample.env split_request []
           "s3cret" "push" ("caf" +:+ Utf8.replacement +:+ Utf8.replacement +:+ "!"));
    try (vm_compute; reflexivity).
  vm_compute. discriminate.
Defined.

Lemma handler_responds_witness :
  handler (Sample.world None None) Sample.bare_env Sample.fix_request []
  = (Ok tt, [Sample.fix_prompt] ++ [Sample.fix_response]).
Proof.
  assert (Hv : verified (Sample.world None None) Sample.bare_env Sample.fix_request
                        "issue_comment" Sample.fix_body).
  { repeat split. exists "s3cret", ("sha256=" +:+ Sample.digest).
    repeat split; vm_compute; reflexivity. }
  destruct (handler_responds (Sample.world None None) Sample.bare_env
              Sample.fix_request []) as [Hok _].
  destruct (Hok _ _ Hv) as [_ Hrun].
  apply (Hrun Sample.fix_payload); vm_compute; reflexivity.
Defined.

(** ** Running a computation step by step *)

Section Steps.
Context {A B : Type}.

Lemma bind_lift (x : outcome A) (k : A -> M B) (h : trace) :
  bind (lift x) k h
  = match x with Ok a => k a h | Throw e => (Throw e, []) end.
Proof.
  unfold bind, lift. destruct x as [a|e]; [|reflexivity].
  rewrite app_nil_r. now destruct (k a h).
Qed.

Lemma bind_ask (f : trace -> A) (k : A -> M B) (h : trace) :
  bind (ask f) k h = k (f h) h.
Proof.
  unfold bind, ask. rewrite app_nil_r. now destruct (k (f h) h).
Qed.

Lemma bind_call (answer : trace -> effect -> outcome A) (e : effect)
      (k : A -> M B) (h : trace) :
  bind (call answer e) k h
  = match answer h e with
    | Ok a => ((k a (h ++ [e])).1, e :: (k a (h ++ [e])).2)
    | Throw err => (Throw err, [e])
    end.
Proof.
  unfold bind, call. destruct (answer h e) as [a|err]; [|reflexivity].
  now destruct (k a (h ++ [e])).
Qed.

Lemma bind_run (m : M A) (k : A -> M B) (h : trace) :
  bind m k h
  = match m h with
    | (Ok a, t1) => ((k a (h ++ t1)).1, t1 ++ (k a (h ++ t1)).2)
    | (Throw e, t1) => (Throw e, t1)
    end.
Proof.
  unfold bind. destruct (m h) as [[a|e] t1]; [|reflexivity].
  now destruct (k a (h ++ t1)).
Qed.
End Steps.

Lemma bind_call_ {B} (answer : trace -> effect -> option error) (e : effect)
      (k : unit -> M B) (h : trace) :
  bind (call_ answer e) k h
  = match answer h e with
    | None => ((k tt (h ++ [e])).1, e :: (k tt (h ++ [e])).2)
    | Some err => (Throw err, [e])
    end.
Proof.
  unfold bind, call_. destruct (answer h e) as [err|]; [reflexivity|].
  now destruct (k tt (h ++ [e])).
Qed.

Section Stages.
Variable w : World.
Variable env : gmap string string.

(** [handleWebhook] as the sequence of its three effectful steps. *)
Lemma handleWebhook_steps event payload summary h :
  summarizeEvent event payload = Ok summary ->
  let action := decideAction summary in
  handleWebhook w env event payload h
  = match logToSheet w env event action summary h with
    | (Throw e, t1) => (Throw e, t1)
    | (Ok _, t1) =>
        match dispatch w env action summary (h ++ t1) with
        | (Throw e, t2) => (Throw e, t1 ++ t2)
        | (Ok result, t2) =>
            match sendTelegramNotification w env
                    (notification action summary result) (h ++ t1 ++ t2) with
            | (Throw e, t3) => (Throw e, t1 ++ t2 ++ t3)
            | (Ok _, t3) => (Ok result, t1 ++ t2 ++ t3)
            end
        end
    end.
Proof.
  intros Hs action. unfold handleWebhook.
  rewrite bind_lift, Hs. fold action.
  rewrite bind_run.
  destruct (logToSheet w env event action summary h) as [[[]|e] t1]; [|reflexivity].
  rewrite bind_run.
  destruct (dispatch w env action summary (h ++ t1)) as [[result|e] t2];
    [|reflexivity].
  cbn [fst snd]. rewrite bind_run, <- app_assoc.
  destruct (sendTelegramNotification w env _ (h ++ t1 ++ t2)) as [[status|e] t3];
    cbn [fst snd ret]; now rewrite ?app_nil_r.
Qed.

(** The handler after the signature check, as parsing followed by the
    pipeline and the 200 response. *)
Lemma accepted_steps event rawBody payload h :
  JSON_parse w rawBody = Ok payload ->
  accepted w env event rawBody h
  = match handleWebhook w env event payload h with
    | (Ok result, t) =>
        (Ok tt, t ++ [Respond 200 "application/json"
                        (VObj [("status", VStr "ok"); ("result", VStr result)])])
    | (Throw e, t) => (Throw e, t)
    end.
Proof.
  intros Hp. unfold accepted. rewrite bind_lift, Hp, bind_run.
  now destruct (handleWebhook w env event payload h) as [[result|e] t].
Qed.

Lemma notifies_run req h summary result t :
  notifies w env req h summary result t ->
  forallb (fun e => is_sheet e || is_dispatch e) t = true
  /\ handler w env req h
     = match sendTelegramNotification w env
               (notification (decideAction summary) summary result) (h ++ t) with
       | (Ok _, t3) =>
           (Ok tt, t ++ t3 ++ [Respond 200 "application/json"
                                 (VObj [("status", VStr "ok");
                                        ("result", VStr result)])])
       | (Throw e, t3) => (Throw e, t ++ t3)
       end.
Proof.
  intros (event & rawBody & payload & t1 & t2 & Hv & Hp & Hs & Hl & Hd & ->).
  split.
  - pose proof (logToSheet_emits w env event (decideAction summary) summary h) as H1.
    pose proof (dispatch_emits w env (decideAction summary) summary (h ++ t1)) as H2.
    rewrite Hl in H1. rewrite Hd in H2. cbn [snd] in *.
    rewrite forallb_app. apply andb_true_iff. split.
    + rewrite forallb_forall in *. intros e He. now rewrite (H1 e He).
    + rewrite forallb_forall in *. intros e He. rewrite (H2 e He). apply orb_true_r.
  - rewrite (handler_verified _ _ _ _ _ h Hv), (accepted_steps _ _ _ _ Hp).
    rewrite (handleWebhook_steps _ _ _ _ Hs). cbn zeta. rewrite Hl, Hd.
    destruct (sendTelegramNotification w env _ (h ++ t1 ++ t2)) as [[status|e] t3];
      now rewrite <- !app_assoc.
Qed.

End Stages.

(** ** Failures of the logger and of the notifier *)

Section Isolation.
Variable w : World.
Variable env : gmap string string.

(** C1, amended. The code does not isolate a failure of the append: for
    a request that passed the signature check and whose body parsed,
    when a spreadsheet is configured and the append of the log row
    fails, the handler fails with the same error, having performed the
    effects of the append only: no dispatch, no notification, no
    response. *)
Theorem handler_log_failure (req : Request) (h : trace)
        (event rawBody : string) (payload : value)
        (summary spreadsheetId : string) (e : error) (t : trace) :
  verified w env req event rawBody ->
  JSON_parse w rawBody = Ok payload ->
  summarizeEvent event payload = Ok summary ->
  truthy (env !! "GOOGLE_SHEETS_ID") = Some spreadsheetId ->
  appendToSheet w env spreadsheetId
                (default "Logs!A:D" (env !! "GOOGLE_SHEETS_RANGE"))
                [[clock_iso w h; event; decideAction summary; summary]] h
  = (Throw e, t) ->
  handler w env req h = (Throw e, t) /\ forallb is_sheet t = true.
Proof.
  intros Hv Hp Hs Hid Happend.
  assert (Hlog : logToSheet w env event (decideAction summary) summary h
                 = (Throw e, t)).
  { unfold logToSheet. rewrite Hid, bind_ask. exact Happend. }
  split.
  - rewrite (handler_verified _ _ _ _ _ h Hv), (accepted_steps _ _ _ _ _ h Hp).
    rewrite (handleWebhook_steps _ _ _ _ _ h Hs). cbn zeta. now rewrite Hlog.
  - pose proof (logToSheet_emits w env event (decideAction summary) summary h) as H.
    now rewrite Hlog in H.
Qed.

(** C3, amended. For a request that reaches the notification step with
    dispatch result [result]: when the notifier completes, the handler
    answers 200 with exactly [result], whatever status the notifier
    returned; when the send-message call fails, the handler fails with
    that error and sends no response; without a bot token or a chat id
    the notifier performs no call and returns its not-configured
    status. *)
Theorem handler_notifier_outcome (req : Request) (h : trace)
        (summary result : string) (t : trace) :
  notifies w env req h summary result t ->
  let notified :=
    sendTelegramNotification w env
      (notification (decideAction summary) summary result) (h ++ t) in
  (forall status t3,
      notified = (Ok status, t3) ->
      handler w env req h
      = (Ok tt, t ++ t3 ++ [Respond 200 "application/json"
                              (VObj [("status", VStr "ok");
                                     ("result", VStr result)])]))
  /\ (forall e t3,
         notified = (Throw e, t3) ->
         handler w env req h = (Throw e, t ++ t3)
         /\ responses (t ++ t3) = 0)
  /\ (truthy (env !! "TELEGRAM_BOT_TOKEN") = None
      \/ truthy (env !! "TELEGRAM_CHAT_ID") = None ->
      notified = (Ok "Missing TELEGRAM_BOT_TOKEN or TELEGRAM_CHAT_ID", [])).
Proof.
  intros Hn notified.
  destruct (notifies_run _ _ _ _ _ _ _ Hn) as [Ht Hrun]. fold notified in Hrun.
  split; [|split].
  - intros status t3 E. now rewrite Hrun, E.
  - intros e t3 E. rewrite Hrun, E. split; [reflexivity|].
    pose proof (sendTelegramNotification_emits w env
                  (notification (decideAction summary) summary result) (h ++ t)) as H3.
    fold notified in H3. rewrite E in H3. cbn [snd] in H3.
    apply no_response_count. rewrite forallb_app, andb_true_iff. split.
    + rewrite forallb_forall in *. intros x Hx. specialize (Ht x Hx).
      destruct x; try reflexivity; discriminate.
    + rewrite forallb_forall in *. intros x Hx. specialize (H3 x Hx).
      destruct x; try reflexivity; discriminate.
  - intros Habsent. unfold notified, sendTelegramNotification.
    destruct Habsent as [-> | ->]; [reflexivity|].
    now destruct (truthy (env !! "TELEGRAM_BOT_TOKEN")).
Qed.

(** C10. For a request that reaches the notification step, the action is
    ["build-agent"] or ["fix-or-feature"] and every message the run sends
    to the chat is
    ["Linda update: <action> completed. Summary: <summary>. Result: <result>"],
    addressed with the configured bot token and chat id; with both
    configured, that message is sent right after the effects of the logger
    and of the dispatch. *)
Theorem notification_message (req : Request) (h : trace)
        (summary result : string) (t : trace) :
  notifies w env req h summary result t ->
  let action := decideAction summary in
  let message := "Linda update: " +:+ action +:+ " completed. Summary: "
                 +:+ summary +:+ ". Result: " +:+ result in
  (action = "build-agent" \/ action = "fix-or-feature")
  /\ (forall token chatId text,
         In (TelegramSend token chatId text) (handler w env req h).2 ->
         truthy (env !! "TELEGRAM_BOT_TOKEN") = Some token
         /\ truthy (env !! "TELEGRAM_CHAT_ID") = Some chatId
         /\ text = message)
  /\ (forall token chatId,
         truthy (env !! "TELEGRAM_BOT_TOKEN") = Some token ->
         truthy (env !! "TELEGRAM_CHAT_ID") = Some chatId ->
         exists rest, (handler w env req h).2
                      = t ++ TelegramSend token chatId message :: rest).
Proof.
  intros Hn action message.
  destruct (notifies_run _ _ _ _ _ _ _ Hn) as [Ht Hrun].
  assert (Hquiet : forall tok chat text, ~ In (TelegramSend tok chat text) t).
  { intros tok chat text Hin. rewrite forallb_forall in Ht.
    now apply Ht in Hin. }
  assert (Hsend : forall token chatId,
             truthy (env !! "TELEGRAM_BOT_TOKEN") = Some token ->
             truthy (env !! "TELEGRAM_CHAT_ID") = Some chatId ->
             exists o, sendTelegramNotification w env
                         (notification (decideAction summary) summary result) (h ++ t)
                       = (o, [TelegramSend token chatId message])).
  { intros token chatId Htok Hchat.
    unfold sendTelegramNotification. rewrite Htok, Hchat, bind_call_.
    destruct (telegram_send w _ _); eauto. }
  split; [apply decideAction_range|]. split.
  - intros token chatId text Hin. rewrite Hrun in Hin.
    destruct (truthy (env !! "TELEGRAM_BOT_TOKEN")) as [tok|] eqn:Htok;
      [destruct (truthy (env !! "TELEGRAM_CHAT_ID")) as [chat|] eqn:Hchat|].
    + destruct (Hsend tok chat eq_refl eq_refl) as [o Hs]. rewrite Hs in Hin.
      assert (Hin' : In (TelegramSend token chatId text)
                        (t ++ [TelegramSend tok chat message])).
      { destruct o; cbn [snd] in Hin; [|exact Hin].
        apply in_app_or in Hin as [Hin | Hin]; [apply in_or_app; now left|].
        apply in_app_or in Hin as [Hin | [Hin | []]];
          [apply in_or_app; now right | discriminate]. }
      apply in_app_or in Hin' as [Hin' | [Hin' | []]].
      * now apply Hquiet in Hin'.
      * now injection Hin' as <- <- <-.
    + exfalso. unfold sendTelegramNotification in Hin. rewrite Htok, Hchat in Hin.
      cbn [ret snd app] in Hin.
      apply in_app_or in Hin as [Hin | [Hin | []]];
        [now apply Hquiet in Hin | discriminate].
    + exfalso. unfold sendTelegramNotification in Hin. rewrite Htok in Hin.
      cbn [ret snd app] in Hin.
      apply in_app_or in Hin as [Hin | [Hin | []]];
        [now apply Hquiet in Hin | discriminate].
  - intros token chatId Htok Hchat.
    destruct (Hsend token chatId Htok Hchat) as [o Hs].
    rewrite Hrun, Hs. destruct o; cbn [snd app]; eauto.
Qed.

End Isolation.

(** ** The agent-scaffold builder *)

Section Builder.
Variable w : World.
Variable env : gmap string string.

(** The six calls of a commit, in the order of the code. *)
Lemma commitFileToGitHub_resolves owner repo path message content branch token h :
  host_resolves w ->
  truthy (env !! "GITHUB_TOKEN") = Some token ->
  exists ref_sha commit_sha base_tree blob_sha tree_sha new_sha,
    commitFileToGitHub w env owner repo path message content branch h
    = (Ok ("Committed to " +:+ owner +:+ "/" +:+ repo +:+ ":" +:+ path),
       [GitGetRef token owner repo ("heads/" +:+ branch);
        GitGetCommit token owner repo ref_sha;
        GitCreateBlob token owner repo content "utf-8";
        GitCreateTree token owner repo base_tree
          [TreeEntry path "100644" "blob" blob_sha];
        GitCreateCommit token owner repo message tree_sha [commit_sha];
        GitUpdateRef token owner repo ("heads/" +:+ branch) new_sha]).
Proof.
  intros (_ & Href & Hcommit & Hblob & Htree & Hnew & Hupd) Htok.
  unfold commitFileToGitHub. rewrite Htok.
  rewrite bind_call.
  destruct (Href h (GitGetRef token owner repo ("heads/" +:+ branch)))
    as [ref_sha ->].
  rewrite bind_call.
  destruct (Hcommit (h ++ [GitGetRef token owner repo ("heads/" +:+ branch)])
                    (GitGetCommit token owner repo ref_sha))
    as [[commit_sha base_tree] ->].
  rewrite bind_call.
  match goal with |- context [git_createBlob w ?h' ?e'] =>
    destruct (Hblob h' e') as [blob_sha ->] end.
  rewrite bind_call.
  match goal with |- context [git_createTree w ?h' ?e'] =>
    destruct (Htree h' e') as [tree_sha ->] end.
  rewrite bind_call.
  match goal with |- context [git_createCommit w ?h' ?e'] =>
    destruct (Hnew h' e') as [new_sha ->] end.
  rewrite bind_call_, Hupd.
  exists ref_sha, commit_sha, base_tree, blob_sha, tree_sha, new_sha.
  reflexivity.
Qed.

(** C9. Without a token, or without an owner, the builder returns the
    matching configuration error at once, with no remote call. With
    both, its first call creates a private repository named
    ["agent-<Date.now()>"]; when the repository host answers every call,
    it then commits [README.md] holding the scaffold to [heads/main] of
    that repository and returns the confirmation that names it. *)
Theorem buildNewAgentRepo_spec (summary : string) (h : trace) :
  (truthy (env !! "GITHUB_TOKEN") = None ->
   buildNewAgentRepo w env summary h = (Ok "Missing GITHUB_TOKEN", []))
  /\ (forall token,
         truthy (env !! "GITHUB_TOKEN") = Some token ->
         truthy (env !! "GITHUB_OWNER") = None ->
         buildNewAgentRepo w env summary h = (Ok "Missing GITHUB_OWNER", []))
  /\ (forall token owner,
         truthy (env !! "GITHUB_TOKEN") = Some token ->
         truthy (env !! "GITHUB_OWNER") = Some owner ->
         let repoName := "agent-" +:+ pretty (clock_ms w h) in
         let create := ReposCreate token repoName
                         "Generated agent scaffold from Linda" true in
         let scaffold := "# " +:+ repoName +:+ newline +:+ newline
                         +:+ "Generated by Linda. Summary: " +:+ summary
                         +:+ newline in
         (exists rest, (buildNewAgentRepo w env summary h).2 = create :: rest)
         /\ (host_resolves w ->
             exists ref_sha commit_sha base_tree blob_sha tree_sha new_sha,
               buildNewAgentRepo w env summary h
               = (Ok ("Created new agent repository: " +:+ repoName),
                  [create;
                   GitGetRef token owner repoName "heads/main";
                   GitGetCommit token owner repoName ref_sha;
                   GitCreateBlob token owner repoName scaffold "utf-8";
                   GitCreateTree token owner repoName base_tree
                     [TreeEntry "README.md" "100644" "blob" blob_sha];
                   GitCreateCommit token owner repoName
                     "chore: initial agent scaffold" tree_sha [commit_sha];
                   GitUpdateRef token owner repoName "heads/main" new_sha]))).
Proof.
  split; [|split].
  - intros Htok. unfold buildNewAgentRepo. now rewrite Htok.
  - intros token Htok Hown. unfold buildNewAgentRepo. now rewrite Htok, Hown.
  - intros token owner Htok Hown repoName create scaffold.
    unfold buildNewAgentRepo. rewrite Htok, Hown, bind_ask.
    fold repoName. fold create. rewrite bind_call_. split.
    + destruct (repos_create w h create); cbn [snd]; eauto.
    + intros Hres. pose proof Hres as (Hcreate & _). rewrite Hcreate.
      fold scaffold. rewrite bind_run.
      destruct (commitFileToGitHub_resolves owner repoName "README.md"
                  "chore: initial agent scaffold" scaffold "main" token
                  (h ++ [create]) Hres Htok)
        as (ref_sha & commit_sha & base_tree & blob_sha & tree_sha & new_sha & ->).
      exists ref_sha, commit_sha, base_tree, blob_sha, tree_sha, new_sha.
      reflexivity.
Qed.

End Builder.

(** ** The deployment of the examples, run *)

Lemma sample_host_resolves sheets telegram :
  host_resolves (Sample.world sheets telegram).
Proof. repeat split; intros; simpl; eauto. Qed.

Lemma sample_verified sheets telegram event body :
  Utf8.decode body = body ->
  verified (Sample.world sheets telegram) Sample.env
           (Sample.request (Sample.signed event) body) event body
  <-> event <> "".
Proof.
  intros Htext. split.
  - intros (_ & _ & Hev & _) ->. vm_compute in Hev. discriminate.
  - intros Hne. repeat split.
    + unfold readRawBody, Sample.request. cbn [req_error req_chunks foldl].
      now rewrite Htext.
    + unfold Sample.request, Sample.signed. cbn [req_headers].
      rewrite lookup_insert_ne by discriminate. rewrite lookup_singleton_eq.
      cbn [truthy]. apply String.eqb_neq in Hne. now rewrite Hne.
    + exists "s3cret", ("sha256=" +:+ Sample.digest).
      repeat split; vm_compute; reflexivity.
Qed.

Lemma sample_notifies telegram :
  notifies (Sample.world None telegram) Sample.env Sample.fix_request []
           Sample.fix_summary Sample.fix_result
           [Sample.fix_log; Sample.fix_prompt].
Proof.
  exists "issue_comment", Sample.fix_body, Sample.fix_payload,
    [Sample.fix_log], [Sample.fix_prompt].
  split; [now apply sample_verified|].
  repeat split; vm_compute; reflexivity.
Defined.

(** C1 fails as stated: with a spreadsheet configured and an append that
    rejects, a request with a valid signature gets no 200 and no dispatch
    takes place. *)
Lemma handler_log_failure_not_isolated :
  verified (Sample.world (Some (Rejected "network")) None) Sample.env
           Sample.fix_request "issue_comment" Sample.fix_body
  /\ handler (Sample.world (Some (Rejected "network")) None) Sample.env
             Sample.fix_request []
     = (Throw (Rejected "network"), [Sample.fix_log]).
Proof.
  split; [now apply sample_verified | vm_compute; reflexivity].
Qed.

Lemma handler_log_failure_witness :
  handler (Sample.world (Some (Rejected "network")) None) Sample.env
          Sample.fix_request []
  = (Throw (Rejected "network"), [Sample.fix_log])
  /\ forallb is_sheet [Sample.fix_log] = true.
Proof.
  apply (handler_log_failure (Sample.world (Some (Rejected "network")) None)
           Sample.env Sample.fix_request [] "issue_comment" Sample.fix_body
           Sample.fix_payload Sample.fix_summary "sheet-1");
    [now apply sample_verified | vm_compute; reflexivity ..].
Defined.

(** C3 fails as stated: when the send-message call rejects, the dispatch
    result, already computed, never reaches the webhook caller. *)
Lemma handler_notifier_failure_not_isolated :
  notifies (Sample.world None (Some (Rejected "network"))) Sample.env
           Sample.fix_request [] Sample.fix_summary Sample.fix_result
           [Sample.fix_log; Sample.fix_prompt]
  /\ handler (Sample.world None (Some (Rejected "network"))) Sample.env
             Sample.fix_request []
     = (Throw (Rejected "network"),
        [Sample.fix_log; Sample.fix_prompt;
         TelegramSend "bot-token" "42" Sample.fix_message]).
Proof.
  split; [apply sample_notifies | vm_compute; reflexivity].
Qed.

Lemma handler_notifier_outcome_witness :
  handler (Sample.world None None) Sample.env Sample.fix_request []
  = (Ok tt, [Sample.fix_log; Sample.fix_prompt]
            ++ [TelegramSend "bot-token" "42" Sample.fix_message]
            ++ [Sample.fix_response]).
Proof.
  destruct (handler_notifier_outcome (Sample.world None None) Sample.env
              Sample.fix_request [] _ _ _ (sample_notifies None)) as (Hok & _ & _).
  apply (Hok "Telegram notification sent"). vm_compute. reflexivity.
Defined.

Lemma notification_message_witness :
  exists rest,
    (handler (Sample.world None None) Sample.env Sample.fix_request []).2
    = [Sample.fix_log; Sample.fix_prompt]
      ++ TelegramSend "bot-token" "42" Sample.fix_message :: rest.
Proof.
  destruct (notification_message (Sample.world None None) Sample.env
              Sample.fix_request [] _ _ _ (sample_notifies None))
    as (_ & _ & Hsent).
  apply (Hsent "bot-token" "42"); vm_compute; reflexivity.
Defined.

Lemma buildNewAgentRepo_spec_witness :
  buildNewAgentRepo (Sample.world None None) Sample.bare_env
                    "Issue: Build an agent for metrics" []
  = (Ok "Missing GITHUB_TOKEN", [])
  /\ exists rest,
       (buildNewAgentRepo (Sample.world None None) Sample.env
                          "Issue: Build an agent for metrics" []).2
       = ReposCreate "ghp_token" "agent-1714564800000"
                     "Generated agent scaffold from Linda" true :: rest.
Proof.
  split.
  - apply (buildNewAgentRepo_spec (Sample.world None None) Sample.bare_env).
    vm_compute. reflexivity.
  - destruct (buildNewAgentRepo_spec (Sample.world None None) Sample.env
                "Issue: Build an agent for metrics" []) as (_ & _ & Hboth).
    destruct (Hboth "ghp_token" "acme") as [Hfirst _];
      try (vm_compute; reflexivity).
    exact Hfirst.
Defined.

Example build_agent_run :
  buildNewAgentRepo (Sample.world None None) Sample.env
                    "Issue: Build an agent for metrics" []
  = (Ok "Created new agent repository: agent-1714564800000",
     [ReposCreate "ghp_token" "agent-1714564800000"
        "Generated agent scaffold from Linda" true;
      GitGetRef "ghp_token" "acme" "agent-1714564800000" "heads/main";
      GitGetCommit "ghp_token" "acme" "agent-1714564800000" "ref0";
      GitCreateBlob "ghp_token" "acme" "agent-1714564800000"
        ("# agent-1714564800000" +:+ newline +:+ newline
         +:+ "Generated by Linda. Summary: Issue: Build an agent for metrics"
         +:+ newline) "utf-8";
      GitCreateTree "ghp_token" "acme" "agent-1714564800000" "tree0"
        [TreeEntry "README.md" "100644" "blob" "blob1"];
      GitCreateCommit "ghp_token" "acme" "agent-1714564800000"
        "chore: initial agent scaffold" "tree1" ["commit0"];
      GitUpdateRef "ghp_token" "acme" "agent-1714564800000" "heads/main" "commit1"]).
Proof. vm_compute. reflexivity. Qed.

(** * Further properties of the code *)

(** ** White space and trimming *)

Module TrimFacts.
Import JsString.

Lemma append_assoc (a b c : string) : (a +:+ b) +:+ c = a +:+ (b +:+ c).
Proof.
  induction a as [|x a IH]; [reflexivity|].
  exact (f_equal (String x) IH).
Qed.

Lemma append_nil_r (a : string) : a +:+ "" = a.
Proof.
  induction a as [|x a IH]; [reflexivity|].
  exact (f_equal (String x) IH).
Qed.

Lemma is_blank_lower (c : ascii) : is_blank (lower_char c) = is_blank c.
Proof. destruct c as [[] [] [] [] [] [] [] []]; vm_compute; reflexivity. Qed.

Lemma trimEnd_empty (s : string) : trimEnd s = "" <-> all_blank s = true.
Proof.
  induction s as [|c s IH]; simpl; [tauto|].
  destruct (trimEnd s) as [|d r].
  - rewrite (proj1 IH eq_refl), andb_true_r.
    destruct (is_blank c); split; auto; discriminate.
  - split; [discriminate|]. intros H.
    apply andb_true_iff in H as [_ H]. apply IH in H. discriminate.
Qed.

Lemma trimStart_starts (s : string) : starts_blank (trimStart s) = false.
Proof.
  induction s as [|c s IH]; simpl; [reflexivity|].
  destruct (is_blank c) eqn:E; [exact IH | simpl; exact E].
Qed.

Lemma trimEnd_ends (s : string) : ends_blank (trimEnd s) = false.
Proof.
  induction s as [|c s IH]; simpl; [reflexivity|].
  destruct (trimEnd s) as [|d r] eqn:E.
  - destruct (is_blank c) eqn:Ec; simpl; [reflexivity | exact Ec].
  - exact IH.
Qed.

Lemma trimEnd_starts (s : string) :
  starts_blank s = false -> starts_blank (trimEnd s) = false.
Proof.
  destruct s as [|c s]; simpl; [reflexivity|]. intros Hc.
  destruct (trimEnd s); rewrite ?Hc; simpl; now rewrite ?Hc.
Qed.

(** A trimmed text has no white space at either end. *)
Lemma trim_ends (s : string) :
  starts_blank (trim s) = false /\ ends_blank (trim s) = false.
Proof.
  unfold trim. split; [apply trimEnd_starts, trimStart_starts | apply trimEnd_ends].
Qed.

Lemma trimStart_lower (s : string) :
  trimStart (toLowerCase s) = toLowerCase (trimStart s).
Proof.
  induction s as [|c s IH]; simpl; [reflexivity|].
  rewrite is_blank_lower. now destruct (is_blank c).
Qed.

Lemma trimEnd_lower (s : string) :
  trimEnd (toLowerCase s) = toLowerCase (trimEnd s).
Proof.
  induction s as [|c s IH]; simpl; [reflexivity|].
  rewrite IH, is_blank_lower.
  destruct (trimEnd s); simpl; [now destruct (is_blank c) | reflexivity].
Qed.

Lemma trim_lower (s : string) : trim (toLowerCase s) = toLowerCase (trim s).
Proof. unfold trim. now rewrite trimStart_lower, trimEnd_lower. Qed.

Lemma toLowerCase_app (a b : string) :
  toLowerCase (a +:+ b) = toLowerCase a +:+ toLowerCase b.
Proof.
  induction a as [|c a IH]; [reflexivity|].
  exact (f_equal (String (lower_char c)) IH).
Qed.

(** A pattern that ends with a visible character does not start in
    white space only. *)
Lemma startsWith_blank (s p : string) :
  all_blank s = true -> ends_blank p = false -> p <> "" ->
  startsWith s p = false.
Proof.
  revert s. induction p as [|a p IH]; intros s Hs Hp Hne; [congruence|].
  destruct s as [|c s]; [reflexivity|]. simpl in *.
  apply andb_true_iff in Hs as [Hc Hs].
  destruct (Ascii.eqb_spec a c) as [->|]; [|reflexivity].
  destruct p as [|b p]; [congruence|].
  apply IH; [exact Hs | exact Hp | discriminate].
Qed.

Lemma includes_blank (s p : string) :
  all_blank s = true -> ends_blank p = false -> p <> "" ->
  includes s p = false.
Proof.
  intros Hs Hp Hne. induction s as [|c s IH]; simpl.
  - destruct p; [congruence | reflexivity].
  - rewrite (startsWith_blank _ _ Hs Hp Hne). simpl in Hs.
    apply andb_true_iff in Hs as [_ Hs]. now apply IH.
Qed.

Lemma startsWith_trimEnd (s p : string) :
  ends_blank p = false -> p <> "" ->
  startsWith (trimEnd s) p = startsWith s p.
Proof.
  revert p. induction s as [|c s IH]; intros p Hp Hne; [reflexivity|].
  destruct p as [|a p]; [congruence|].
  cbn [trimEnd]. destruct (trimEnd s) as [|d r] eqn:E.
  - apply trimEnd_empty in E.
    destruct (is_blank c) eqn:Ec.
    + symmetry. apply startsWith_blank; [simpl; now rewrite Ec, E | exact Hp | exact Hne].
    + simpl. destruct (Ascii.eqb a c); [|reflexivity].
      destruct p as [|b p]; [reflexivity|].
      symmetry. apply (startsWith_blank s (String b p)); [exact E | exact Hp | discriminate].
  - simpl. destruct (Ascii.eqb a c); [|reflexivity].
    destruct p as [|b p]; [reflexivity|].
    apply IH; [exact Hp | discriminate].
Qed.

Lemma includes_trimEnd (s p : string) :
  ends_blank p = false -> p <> "" ->
  includes (trimEnd s) p = includes s p.
Proof.
  intros Hp Hne. induction s as [|c s IH]; [reflexivity|].
  cbn [includes]. rewrite <- (startsWith_trimEnd (String c s) p Hp Hne), <- IH.
  cbn [trimEnd]. destruct (trimEnd s) as [|d r] eqn:E.
  - destruct (is_blank c); simpl.
    + destruct p; [congruence | reflexivity].
    + destruct p; [congruence|]. simpl. now rewrite !orb_false_r.
  - reflexivity.
Qed.

Lemma includes_trimStart (s p : string) :
  starts_blank p = false -> p <> "" ->
  includes (trimStart s) p = includes s p.
Proof.
  intros Hp Hne. induction s as [|c s IH]; [reflexivity|].
  cbn [trimStart]. destruct (is_blank c) eqn:Ec; [|reflexivity].
  rewrite IH. cbn [includes].
  destruct p as [|a p]; [congruence|]. simpl in Hp |- *.
  destruct (Ascii.eqb_spec a c) as [->|]; [congruence | reflexivity].
Qed.

(** Trimming neither creates nor destroys an occurrence of a pattern
    whose first and last characters are visible. *)
Lemma includes_trim (s p : string) :
  starts_blank p = false -> ends_blank p = false -> p <> "" ->
  includes (trim s) p = includes s p.
Proof.
  intros H1 H2 Hne. unfold trim.
  now rewrite includes_trimEnd, includes_trimStart.
Qed.

Lemma includes_app (l s r p : string) :
  includes s p = true -> includes (l +:+ s +:+ r) p = true.
Proof.
  rewrite !JsStringFacts.includes_spec. intros (a & b & ->).
  exists (l +:+ a), (b +:+ r). now rewrite !append_assoc.
Qed.

End TrimFacts.

(** ** The classifier under case, trimming and embedding *)

Lemma phrase_trim (s p : string) :
  starts_blank p = false -> ends_blank p = false -> p <> "" ->
  JsString.includes (JsString.toLowerCase (JsString.trim s)) p
  = JsString.includes (JsString.toLowerCase s) p.
Proof.
  intros H1 H2 Hne. rewrite <- TrimFacts.trim_lower.
  now apply TrimFacts.includes_trim.
Qed.

Lemma classify_lower (summary : string) :
  decideAction (JsString.toLowerCase summary) = decideAction summary.
Proof. unfold decideAction. now rewrite JsStringFacts.toLowerCase_idem. Qed.

Lemma classify_trim (summary : string) :
  decideAction (JsString.trim summary) = decideAction summary.
Proof.
  unfold decideAction. rewrite !phrase_trim; try reflexivity; discriminate.
Qed.

Lemma classify_embedded (before text after : string) :
  decideAction text = "build-agent" ->
  decideAction (before +:+ text +:+ after) = "build-agent".
Proof.
  unfold decideAction. rewrite !TrimFacts.toLowerCase_app.
  destruct (JsString.includes (JsString.toLowerCase text) "build an agent") eqn:E1.
  - intros _. now rewrite (TrimFacts.includes_app _ _ _ _ E1).
  - destruct (JsString.includes (JsString.toLowerCase text) "generate a new agent")
      eqn:E2; [|discriminate].
    intros _. rewrite (TrimFacts.includes_app _ _ _ _ E2). now rewrite orb_true_r.
Qed.

(** X1. The decision of the classifier does not change when the summary
    is lower-cased or trimmed. *)
Theorem decideAction_insensitive (summary : string) :
  decideAction (JsString.toLowerCase summary) = decideAction summary
  /\ decideAction (JsString.trim summary) = decideAction summary.
Proof. split; [apply classify_lower | apply classify_trim]. Qed.

(** X2. A text that asks for an agent still does so inside any longer
    text: the classifier answers ["build-agent"] for every summary that
    embeds it. *)
Theorem decideAction_embedded (before text after : string) :
  decideAction text = "build-agent" ->
  decideAction (before +:+ text +:+ after) = "build-agent".
Proof. apply classify_embedded. Qed.

Lemma decideAction_embedded_witness :
  decideAction ("Issue: " +:+ "Please BUILD an Agent" +:+ " for metrics") = "build-agent".
Proof. apply decideAction_embedded. reflexivity. Defined.

(** The converse fails: two halves that do not ask may ask once joined. *)
Example decide_straddle :
  decideAction "agent, build an " = "fix-or-feature"
  /\ decideAction ("agent, build an " +:+ "agent, build an ") = "build-agent".
Proof. split; reflexivity. Qed.

(** ** The summaries of well-formed deliveries *)

Section Summaries.
Variable fields : list (string * value).
Hypothesis Hshaped : shaped (VObj fields) = true.

Lemma shaped_parts :
  absent_or (has_text "full_name") (Js.own fields "repository") = true
  /\ absent_or is_commits (Js.own fields "commits") = true
  /\ absent_or (has_text "title") (Js.own fields "issue") = true
  /\ absent_or (has_text "body") (Js.own fields "issue") = true
  /\ absent_or (has_text "body") (Js.own fields "comment") = true.
Proof.
  pose proof Hshaped as H. cbn [shaped] in H. rewrite !andb_true_iff in H.
  destruct H as [[[Hr Hc] Hi] Hm]. repeat split; auto.
  - destruct (Js.own fields "issue") as [[]|]; cbn [absent_or] in *; auto.
    now apply andb_true_iff in Hi.
  - destruct (Js.own fields "issue") as [[]|]; cbn [absent_or] in *; auto.
    now apply andb_true_iff in Hi.
Qed.

Lemma summarize_issues_shaped :
  summarizeEvent "issues" (VObj fields)
  = Ok (JsString.trim
          ("Issue: " +:+ text_or "" (field (Js.own fields "issue") "title") +:+ " "
           +:+ text_or "" (field (Js.own fields "issue") "body"))).
Proof.
  destruct shaped_parts as (_ & _ & Ht & Hb & _).
  change (summarizeEvent "issues" (VObj fields))
    with (obind (Js.get_opt (Js.own fields "issue") "title") (fun title =>
          obind (Js.toString (Js.nullish title (VStr ""))) (fun title_s =>
          obind (Js.get_opt (Js.own fields "issue") "body") (fun body =>
          obind (Js.toString (Js.nullish body (VStr ""))) (fun body_s =>
          Ok (JsString.trim ("Issue: " +:+ title_s +:+ " " +:+ body_s))))))).
  rewrite (get_opt_shaped _ _ "title" Ht (has_text_obj _)). cbn [obind].
  rewrite (toString_text "" _ (text_field _ _ Ht)). cbn [obind].
  rewrite (get_opt_shaped _ _ "body" Hb (has_text_obj _)). cbn [obind].
  rewrite (toString_text "" _ (text_field _ _ Hb)). reflexivity.
Qed.

Lemma summarize_comment_shaped :
  summarizeEvent "issue_comment" (VObj fields)
  = Ok (JsString.trim
          ("Issue comment: " +:+ text_or "" (field (Js.own fields "comment") "body"))).
Proof.
  destruct shaped_parts as (_ & _ & _ & _ & Hc).
  change (summarizeEvent "issue_comment" (VObj fields))
    with (obind (Js.get_opt (Js.own fields "comment") "body") (fun body =>
          obind (Js.toString (Js.nullish body (VStr ""))) (fun body_s =>
          Ok (JsString.trim ("Issue comment: " +:+ body_s))))).
  rewrite (get_opt_shaped _ _ "body" Hc (has_text_obj _)). cbn [obind].
  rewrite (toString_text "" _ (text_field _ _ Hc)). reflexivity.
Qed.

Lemma summarize_push_shaped (items : list value) :
  Js.own fields "commits" = Some (VArr items) ->
  summarizeEvent "push" (VObj fields)
  = Ok ("Push to " +:+ text_or "unknown" (field (Js.own fields "repository") "full_name")
        +:+ ": " +:+ JsString.join " | "
                       (map (fun c => text_or "" (field (Some c) "message")) items)).
Proof.
  intros Hitems. destruct shaped_parts as (Hr & Hc & _).
  rewrite Hitems in Hc. cbn [absent_or is_commits] in Hc.
  change (summarizeEvent "push" (VObj fields))
    with (obind (Js.get_opt (Js.own fields "repository") "full_name") (fun full_name =>
          obind (Js.toString (Js.nullish full_name (VStr "unknown"))) (fun name =>
          obind (joined_messages (Js.own fields "commits")) (fun joined =>
          obind (Js.show joined) (fun msgs =>
          Ok ("Push to " +:+ name +:+ ": " +:+ msgs)))))).
  rewrite (get_opt_shaped _ _ "full_name" Hr (has_text_obj _)). cbn [obind].
  rewrite (toString_text "unknown" _ (text_field _ _ Hr)). cbn [obind].
  rewrite Hitems. unfold joined_messages, commit_messages.
  rewrite (messages_shaped _ Hc). cbn [obind].
  rewrite (join_shaped _ _ Hc). reflexivity.
Qed.

End Summaries.

(** ** From the text of a delivery to the decision *)

Lemma join_In (sep m : string) (l : list string) :
  In m l -> exists a b, JsString.join sep l = a +:+ m +:+ b.
Proof.
  induction l as [|x l IH]; [intros []|]. intros [-> | Hin].
  - destruct l as [|y l].
    + exists "", "". cbn [JsString.join]. now rewrite TrimFacts.append_nil_r.
    + exists "", (sep +:+ JsString.join sep (y :: l)). reflexivity.
  - destruct (IH Hin) as (a & b & E). destruct l as [|y l]; [destruct Hin|].
    exists (x +:+ sep +:+ a), b.
    change (JsString.join sep (x :: y :: l))
      with (x +:+ sep +:+ JsString.join sep (y :: l)).
    now rewrite E, !TrimFacts.append_assoc.
Qed.

(** X3. On a payload of the declared shapes, a request for an agent in
    any letter case reaches the builder branch: when the issue title or
    body (event [issues]), the comment body (event [issue_comment]) or
    one of the commit messages (event [push]) asks for an agent, the
    summary is computed and classified ["build-agent"]. *)
Theorem agent_request_classified (fields : list (string * value)) :
  shaped (VObj fields) = true ->
  let asks := fun v => decideAction (text_or "" v) = "build-agent" in
  let builds := fun event =>
    exists summary, summarizeEvent event (VObj fields) = Ok summary
                    /\ decideAction summary = "build-agent" in
  (asks (field (Js.own fields "issue") "title")
   \/ asks (field (Js.own fields "issue") "body") -> builds "issues")
  /\ (asks (field (Js.own fields "comment") "body") -> builds "issue_comment")
  /\ (forall items commit,
         Js.own fields "commits" = Some (VArr items) ->
         In commit items ->
         asks (field (Some commit) "message") -> builds "push").
Proof.
  intros Hs asks builds. unfold asks, builds. split; [|split].
  - intros H. rewrite (summarize_issues_shaped fields Hs).
    eexists; split; [reflexivity|]. rewrite classify_trim.
    destruct H as [H | H].
    + now apply classify_embedded.
    + rewrite <- (TrimFacts.append_nil_r (text_or "" (field (Js.own fields "issue") "body"))).
      change ("Issue: " +:+ ?t +:+ " " +:+ ?b +:+ "")
        with ("Issue: " +:+ (t +:+ (" " +:+ (b +:+ "")))).
      rewrite <- !TrimFacts.append_assoc. rewrite TrimFacts.append_assoc.
      now apply classify_embedded.
  - intros H. rewrite (summarize_comment_shaped fields Hs).
    eexists; split; [reflexivity|]. rewrite classify_trim.
    rewrite <- (TrimFacts.append_nil_r (text_or "" _)).
    now apply classify_embedded.
  - intros items commit Hitems Hin H.
    rewrite (summarize_push_shaped fields Hs items Hitems).
    eexists; split; [reflexivity|].
    destruct (join_In " | " (text_or "" (field (Some commit) "message"))
                (map (fun c => text_or "" (field (Some c) "message")) items))
      as (a & b & ->).
    { apply in_map_iff. now exists commit. }
    rewrite <- !TrimFacts.append_assoc. rewrite TrimFacts.append_assoc.
    now apply classify_embedded.
Qed.

Lemma agent_request_classified_witness :
  exists summary,
    summarizeEvent "issues" Sample.build_payload = Ok summary
    /\ decideAction summary = "build-agent".
Proof.
  destruct (agent_request_classified
              [("issue", VObj [("title", VStr "Build an agent");
                               ("body", VStr "for metrics")])] eq_refl)
    as (Hissue & _).
  apply Hissue. left. reflexivity.
Defined.

(** Splits a hypothesis on a chain of [obind] into its successful steps. *)
Ltac invert_obind H :=
  unfold obind in H;
  repeat match type of H with
         | context [match ?x with Ok _ => _ | Throw _ => _ end] =>
             let E := fresh "E" in destruct x eqn:E; [|discriminate H]
         end;
  try (injection H as H).

Lemma trimmed_prefix (p rest : string) :
  starts_blank p = false -> ends_blank p = false -> p <> "" ->
  JsString.startsWith (JsString.trim (p +:+ rest)) p = true.
Proof.
  intros H1 H2 Hne. unfold JsString.trim.
  rewrite TrimFacts.startsWith_trimEnd by assumption.
  destruct p as [|c p]; [congruence|]. cbn [starts_blank] in H1.
  change (String c p +:+ rest) with (String c (p +:+ rest)).
  cbn [JsString.trimStart]. rewrite H1.
  apply JsStringFacts.startsWith_spec. now exists rest.
Qed.

(** X4. The form of a summary, for any payload at all: an event type
    other than [push], [issues] and [issue_comment] is summarized as
    ["Unhandled event <type>"] without reading the payload, so never
    fails; a summary of [issues] starts with ["Issue:"], one of
    [issue_comment] with ["Issue comment:"], and neither starts or ends
    with white space; a summary of [push] starts with ["Push to "]. *)
Theorem summary_form (event : string) (payload : value) :
  (event <> "push" -> event <> "issues" -> event <> "issue_comment" ->
   summarizeEvent event payload = Ok ("Unhandled event " +:+ event))
  /\ (forall summary,
         summarizeEvent "issues" payload = Ok summary ->
         JsString.startsWith summary "Issue:" = true
         /\ starts_blank summary = false /\ ends_blank summary = false)
  /\ (forall summary,
         summarizeEvent "issue_comment" payload = Ok summary ->
         JsString.startsWith summary "Issue comment:" = true
         /\ starts_blank summary = false /\ ends_blank summary = false)
  /\ (forall summary,
         summarizeEvent "push" payload = Ok summary ->
         JsString.startsWith summary "Push to " = true).
Proof.
  split; [|split; [|split]].
  - intros Hp Hi Hc. unfold summarizeEvent.
    apply String.eqb_neq in Hp, Hi, Hc. now rewrite Hp, Hi, Hc.
  - intros summary H.
    change (summarizeEvent "issues" payload)
      with (obind (Js.get (Some payload) "issue") (fun issue =>
            obind (Js.get_opt issue "title") (fun title =>
            obind (Js.toString (Js.nullish title (VStr ""))) (fun title_s =>
            obind (Js.get_opt issue "body") (fun body =>
            obind (Js.toString (Js.nullish body (VStr ""))) (fun body_s =>
            Ok (JsString.trim ("Issue: " +:+ title_s +:+ " " +:+ body_s)))))))) in H.
    invert_obind H. subst summary. split; [|apply TrimFacts.trim_ends].
    apply (trimmed_prefix "Issue:"); [reflexivity | reflexivity | discriminate].
  - intros summary H.
    change (summarizeEvent "issue_comment" payload)
      with (obind (Js.get (Some payload) "comment") (fun comment =>
            obind (Js.get_opt comment "body") (fun body =>
            obind (Js.toString (Js.nullish body (VStr ""))) (fun body_s =>
            Ok (JsString.trim ("Issue comment: " +:+ body_s)))))) in H.
    invert_obind H. subst summary. split; [|apply TrimFacts.trim_ends].
    apply (trimmed_prefix "Issue comment:"); [reflexivity | reflexivity | discriminate].
  - intros summary H.
    change (summarizeEvent "push" payload)
      with (obind (Js.get (Some payload) "repository") (fun repo =>
            obind (Js.get (Some payload) "commits") (fun commits =>
            obind (Js.get_opt repo "full_name") (fun full_name =>
            obind (Js.toString (Js.nullish full_name (VStr "unknown"))) (fun name =>
            obind (joined_messages commits) (fun joined =>
            obind (Js.show joined) (fun msgs =>
            Ok ("Push to " +:+ name +:+ ": " +:+ msgs)))))))) in H.
    invert_obind H. subst summary.
    apply JsStringFacts.startsWith_spec. eexists. reflexivity.
Qed.

Lemma summary_form_witness :
  summarizeEvent "ping" VNull = Ok "Unhandled event ping"
  /\ JsString.startsWith "Issue comment: please fix the crash on startup"
                         "Issue comment:" = true.
Proof.
  destruct (summary_form "ping" VNull) as (Hother & _).
  destruct (summary_form "issue_comment" Sample.fix_payload) as (_ & _ & Hcomment & _).
  split.
  - apply Hother; discriminate.
  - apply (Hcomment "Issue comment: please fix the crash on startup"). reflexivity.
Defined.

(** ** The handler before the signature check *)

Lemma truthy_empty (x : option string) :
  x = None \/ x = Some "" -> truthy x = None.
Proof. now intros [-> | ->]. Qed.

Module Utf8Facts.
Import Utf8.

Lemma feed_app (st : state) (a b : string) :
  feed st (a +:+ b)
  = let (out1, st1) := feed st a in
    let (out2, st2) := feed st1 b in
    (out1 +:+ out2, st2).
Proof.
  revert st. induction a as [|c a IH]; intros st.
  - change ("" +:+ b) with b. cbn [feed].
    destruct (feed st b) as [out2 st2]. reflexivity.
  - change (String c a +:+ b) with (String c (a +:+ b)). cbn [feed].
    destruct (step st c) as [out st1]. rewrite IH.
    destruct (feed st1 a) as [out1 st2].
    destruct (feed st2 b) as [out2 st3].
    now rewrite TrimFacts.append_assoc.
Qed.

Lemma lead_idle (c : ascii) : idle (lead c).2.
Proof.
  unfold idle, lead.
  destruct (N_of_ascii c <=? 127)%N; [reflexivity|].
  destruct (between 194 (N_of_ascii c) 223); [discriminate|].
  destruct (between 224 (N_of_ascii c) 239); [discriminate|].
  destruct (between 240 (N_of_ascii c) 244); [discriminate|reflexivity].
Qed.

Lemma step_idle (st : state) (c : ascii) : idle (step st c).2.
Proof.
  unfold step. destruct (needed st) as [|n]; [apply lead_idle|].
  destruct (between (lower st) (N_of_ascii c) (upper st)).
  - destruct n as [|m]; unfold idle; cbn [snd needed]; [reflexivity | discriminate].
  - pose proof (lead_idle c) as H. now destruct (lead c).
Qed.

Lemma feed_idle (st : state) (bytes : string) :
  idle st -> idle (feed st bytes).2.
Proof.
  revert st. induction bytes as [|c r IH]; intros st Hst; [exact Hst|].
  cbn [feed]. pose proof (step_idle st c) as H.
  destruct (step st c) as [out st1]. specialize (IH st1 H).
  now destruct (feed st1 r).
Qed.

Lemma whole_start (bytes : string) :
  whole bytes = true -> (feed start bytes).2 = start.
Proof.
  unfold whole. intros H. apply Nat.eqb_eq in H.
  now apply (feed_idle start bytes).
Qed.

(** A buffer that ends on a character boundary can be decoded apart
    from what follows it. *)
Lemma decode_app (a b : string) :
  whole a = true -> decode (a +:+ b) = decode a +:+ decode b.
Proof.
  intros H. apply whole_start in H. unfold decode. rewrite feed_app.
  destruct (feed start a) as [out1 st1]. cbn [snd] in H. subst st1.
  destruct (feed start b) as [out2 st2].
  change (flush start) with "". rewrite TrimFacts.append_nil_r.
  apply TrimFacts.append_assoc.
Qed.

Lemma concat_chunks (c : string) (chunks : list string) :
  String.concat "" (c :: chunks) = c +:+ String.concat "" chunks.
Proof.
  destruct chunks as [|d chunks].
  - cbn. now rewrite TrimFacts.append_nil_r.
  - reflexivity.
Qed.

(** Chunks that all end on a character boundary are decoded as the
    bytes they make together. *)
Lemma decode_chunks (acc : string) (chunks : list string) :
  forallb whole chunks = true ->
  foldl (fun data chunk => data +:+ decode chunk) acc chunks
  = acc +:+ decode (String.concat "" chunks).
Proof.
  revert acc. induction chunks as [|c chunks IH]; intros acc Hw.
  - cbn. now rewrite TrimFacts.append_nil_r.
  - cbn [forallb] in Hw. apply andb_true_iff in Hw as [Hc Hw].
    cbn [foldl]. rewrite (IH _ Hw), concat_chunks, (decode_app _ _ Hc).
    apply TrimFacts.append_assoc.
Qed.

End Utf8Facts.

Section EarlyExits.
Variable w : World.
Variable env : gmap string string.

(** X5. On a deployment whose secret is set, the only one on which the
    module of the handler loads, the checks come in a fixed order and an
    empty header counts as a missing one. A request that is not a POST
    is answered 405 whatever else it carries; a body stream that fails
    makes the handler fail with the stream's error and write nothing,
    even when headers are missing; an empty signature or event-type
    header is answered 400 like a missing one; and no run answers 500. *)
Theorem handler_early_exits (req : Request) (h : trace) (secret : string) :
  truthy (env !! "GITHUB_WEBHOOK_SECRET") = Some secret ->
  (req_method req <> "POST" ->
   handler w env req h
   = (Ok tt, [Respond 405 "application/json" (message_body "Method Not Allowed")]))
  /\ (forall e,
         req_method req = "POST" ->
         req_error req = Some e ->
         handler w env req h = (Throw e, []))
  /\ (req_method req = "POST" ->
      req_error req = None ->
      req_headers req !! "x-hub-signature-256" = Some ""
      \/ req_headers req !! "x-github-event" = Some "" ->
      handler w env req h
      = (Ok tt, [Respond 400 "application/json"
                   (message_body "Missing GitHub webhook headers")]))
  /\ (forall contentType payload,
         ~ In (Respond 500 contentType payload) (handler w env req h).2).
Proof.
  intros Hsec. split; [|split; [|split]].
  - intros Hm. unfold handler. apply String.eqb_neq in Hm. now rewrite Hm.
  - intros e Hm Herr. enter_handler Hm Hsec.
    unfold bind, readRawBody. now rewrite Herr.
  - intros Hm Herr Hempty. enter_handler Hm Hsec.
    unfold bind, readRawBody. rewrite Herr. cbn [lift].
    destruct Hempty as [-> | ->]; cbn [truthy String.eqb]; [reflexivity|].
    now destruct (truthy (req_headers req !! "x-hub-signature-256")).
  - intros contentType payload. unfold handler. rewrite Hsec.
    destruct (negb (String.eqb (req_method req) "POST"));
      [intros [E | []]; discriminate|].
    unfold bind. cbn [lift].
    destruct (readRawBody req) as [rawBody|e]; [|intros []].
    destruct (truthy (req_headers req !! "x-hub-signature-256")) as [signature|];
      [|intros [E | []]; discriminate].
    destruct (truthy (req_headers req !! "x-github-event")) as [event|];
      [|intros [E | []]; discriminate].
    destruct (negb (verify w secret rawBody signature));
      [intros [E | []]; discriminate|].
    destruct (JSON_parse w rawBody) as [p|e]; [|intros []].
    pose proof (handleWebhook_emits w env event p ((h ++ []) ++ [])) as Hquiet.
    rewrite forallb_forall in Hquiet.
    destruct (handleWebhook w env event p ((h ++ []) ++ [])) as [[result|e] t];
      cbn [snd app jsonResponse]; intros Hin.
    + apply in_app_or in Hin as [Hin | [Hin | []]]; [|discriminate].
      now apply Hquiet in Hin.
    + now apply Hquiet in Hin.
Qed.

(** X6. Whatever the request, a response other than 200 is the only
    effect of its run, which then completes: its status is 400, 401, 405
    or 500 and its body a [message] object. Every response is declared
    as JSON. *)
Theorem handler_error_alone (req : Request) (h : trace)
        (status : Z) (contentType : string) (payload : value) :
  In (Respond status contentType payload) (handler w env req h).2 ->
  contentType = "application/json"
  /\ (status = 200%Z
      \/ (In status [400; 401; 405; 500]%Z
          /\ (exists message, payload = message_body message)
          /\ handler w env req h = (Ok tt, [Respond status contentType payload]))).
Proof.
  assert (Hone : forall st msg,
             In st [400; 401; 405; 500]%Z ->
             In (Respond status contentType payload)
                [Respond st "application/json" (message_body msg)] ->
             contentType = "application/json"
             /\ (status = 200%Z
                 \/ (In status [400; 401; 405; 500]%Z
                     /\ (exists message, payload = message_body message)
                     /\ (Ok tt, [Respond st "application/json" (message_body msg)])
                        = (Ok tt, [Respond status contentType payload])))).
  { intros st msg Hst [E | []]. injection E as <- <- <-. eauto 10. }
  unfold handler.
  destruct (negb (String.eqb (req_method req) "POST"));
    [apply Hone; cbn; auto|].
  destruct (truthy (env !! "GITHUB_WEBHOOK_SECRET")) as [secret|];
    [|apply Hone; cbn; auto].
  unfold bind. cbn [lift].
  destruct (readRawBody req) as [rawBody|e]; [|intros []].
  destruct (truthy (req_headers req !! "x-hub-signature-256")) as [signature|];
    [|apply Hone; cbn; auto].
  destruct (truthy (req_headers req !! "x-github-event")) as [event|];
    [|apply Hone; cbn; auto].
  destruct (negb (verify w secret rawBody signature)); [apply Hone; cbn; auto|].
  destruct (JSON_parse w rawBody) as [p|e]; [|intros []].
  pose proof (handleWebhook_emits w env event p ((h ++ []) ++ [])) as Hquiet.
  rewrite forallb_forall in Hquiet.
  destruct (handleWebhook w env event p ((h ++ []) ++ [])) as [[result|e] t];
    cbn [snd app jsonResponse]; intros Hin.
  - apply in_app_or in Hin as [Hin | [Hin | []]].
    + now apply Hquiet in Hin.
    + injection Hin as <- <- <-. auto.
  - now apply Hquiet in Hin.
Qed.

(** X7. The handler turns every chunk of the body into text on its
    own. When each chunk ends on a character boundary, the body is the
    text of all the bytes together, and two such requests with the same
    method, headers, stream outcome and bytes run alike however the
    bytes are cut into chunks. A character cut by a chunk boundary is
    lost: the bytes of [caf\u00e9!] cut inside the character give
    another body than the same bytes in one chunk. *)
Theorem handler_chunk_boundaries (req1 req2 : Request) (h : trace) :
  forallb Utf8.whole (req_chunks req1) = true ->
  (req_error req1 = None ->
   readRawBody req1 = Ok (Utf8.decode (String.concat "" (req_chunks req1))))
  /\ (req_method req1 = req_method req2 ->
      req_headers req1 = req_headers req2 ->
      req_error req1 = req_error req2 ->
      forallb Utf8.whole (req_chunks req2) = true ->
      String.concat "" (req_chunks req1) = String.concat "" (req_chunks req2) ->
      handler w env req1 h = handler w env req2 h)
  /\ readRawBody (Sample.request ∅ (cafe_head +:+ cafe_tail))
     <> readRawBody {| req_method := "POST"; req_headers := ∅;
                       req_chunks := [cafe_head; cafe_tail]; req_error := None |}.
Proof.
  intros Hw1. split; [|split].
  - intros Herr. unfold readRawBody. rewrite Herr.
    now rewrite (Utf8Facts.decode_chunks _ _ Hw1).
  - intros Hm Hh He Hw2 Hc.
    assert (Hbody : readRawBody req1 = readRawBody req2).
    { unfold readRawBody. rewrite <- He.
      destruct (req_error req1); [reflexivity|].
      now rewrite (Utf8Facts.decode_chunks _ _ Hw1),
        (Utf8Facts.decode_chunks _ _ Hw2), Hc. }
    unfold handler. now rewrite Hm, Hh, Hbody.
  - vm_compute. discriminate.
Qed.

End EarlyExits.

Lemma handler_early_exits_witness :
  handler (Sample.world None None) Sample.env
          {| req_method := "GET"; req_headers := ∅;
             req_chunks := []; req_error := Some (Rejected "aborted") |} []
  = (Ok tt, [Respond 405 "application/json" (message_body "Method Not Allowed")]).
Proof.
  apply (handler_early_exits (Sample.world None None) Sample.env _ _ "s3cret");
    [vm_compute; reflexivity | discriminate].
Defined.

Lemma handler_error_alone_witness :
  handler (Sample.world None None) Sample.env
          (Sample.request (Sample.forged "issues") Sample.build_body) []
  = (Ok tt, [Respond 401 "application/json" (message_body "Invalid signature")]).
Proof.
  destruct (handler_error_alone (Sample.world None None) Sample.env
              (Sample.request (Sample.forged "issues") Sample.build_body) []
              401 "application/json" (message_body "Invalid signature"))
    as [_ [H | (_ & _ & H)]]; [vm_compute; auto | discriminate | exact H].
Defined.

Lemma handler_chunk_boundaries_witness :
  handler (Sample.world None None) Sample.env
          {| req_method := "POST"; req_headers := Sample.signed "push";
             req_chunks := ["not "; ""; "json"]; req_error := None |} []
  = handler (Sample.world None None) Sample.env
            (Sample.request (Sample.signed "push") "not json") [].
Proof.
  apply (handler_chunk_boundaries (Sample.world None None) Sample.env);
    reflexivity.
Defined.

(** ** The spreadsheet client *)

Module KeyFacts.

Lemma unescape_eq (c : ascii) (r : string) :
  unescape_newlines (String c r)
  = match r with
    | String d r' =>
        if Ascii.eqb c "\" && Ascii.eqb d "n"
        then String line_feed (unescape_newlines r')
        else String c (unescape_newlines r)
    | EmptyString => String c EmptyString
    end.
Proof.
  destruct (Ascii.eqb_spec c "\") as [->|Hc].
  - destruct r as [|d r']; [reflexivity|].
    destruct d as [[] [] [] [] [] [] [] []]; reflexivity.
  - destruct r as [|d r'];
      destruct c as [[] [] [] [] [] [] [] []]; try reflexivity; congruence.
Qed.

(** Induction two characters at a time. *)
Lemma string_ind2 (P : string -> Prop) :
  P "" ->
  (forall c, P (String c "")) ->
  (forall c d r, P r -> P (String d r) -> P (String c (String d r))) ->
  forall s, P s.
Proof.
  intros H0 H1 H2 s.
  assert (H : P s /\ forall c, P (String c s)); [|exact (proj1 H)].
  induction s as [|d r [IHr IHc]]; split; auto.
Qed.

Lemma unescape_head (s : string) :
  JsString.startsWith (unescape_newlines s) "n" = true ->
  JsString.startsWith s "n" = true.
Proof.
  destruct s as [|c r]; [discriminate|]. rewrite unescape_eq.
  destruct r as [|d r']; [exact id|].
  destruct (Ascii.eqb c "\" && Ascii.eqb d "n"); [discriminate | exact id].
Qed.

Lemma unescape_clean (s : string) :
  JsString.includes (unescape_newlines s) escaped = false.
Proof.
  induction s as [| c | c d r IH1 IH2] using string_ind2; [reflexivity | |].
  - rewrite unescape_eq. unfold escaped.
    cbn [JsString.includes JsString.startsWith]. now destruct (Ascii.eqb "\" c).
  - rewrite unescape_eq.
    destruct (Ascii.eqb c "\" && Ascii.eqb d "n") eqn:E.
    + cbn [JsString.includes]. rewrite IH1. reflexivity.
    + cbn [JsString.includes]. rewrite IH2, orb_false_r.
      destruct (JsString.startsWith (String c (unescape_newlines (String d r))) escaped)
        eqn:Es; [|reflexivity].
      apply JsStringFacts.startsWith_spec in Es as [rest Hrest].
      injection Hrest as -> Hrest.
      assert (Hn : JsString.startsWith (unescape_newlines (String d r)) "n" = true)
        by (apply JsStringFacts.startsWith_spec; now exists rest).
      apply unescape_head, JsStringFacts.startsWith_spec in Hn as [rest' Hn].
      injection Hn as -> _. discriminate E.
Qed.

Lemma unescape_fixed (s : string) :
  JsString.includes s escaped = false -> unescape_newlines s = s.
Proof.
  induction s as [| c | c d r IH1 IH2] using string_ind2;
    [reflexivity | intros _; apply unescape_eq |].
  intros H. cbn [JsString.includes] in H. apply orb_false_iff in H as [Hs Hr].
  rewrite unescape_eq, (IH2 Hr).
  cbn [escaped JsString.startsWith] in Hs.
  destruct (Ascii.eqb_spec c "\") as [->|]; [|reflexivity].
  cbn in Hs. destruct (Ascii.eqb_spec d "n") as [->|]; [discriminate Hs | reflexivity].
Qed.

Lemma unescape_empty (s : string) : unescape_newlines s = "" <-> s = "".
Proof.
  destruct s as [|c r]; [tauto|]. rewrite unescape_eq.
  destruct r as [|d r']; [split; discriminate|].
  destruct (Ascii.eqb c "\" && Ascii.eqb d "n"); split; discriminate.
Qed.

End KeyFacts.

Lemma truthy_Some (x : option string) (s : string) :
  truthy x = Some s <-> x = Some s /\ s <> "".
Proof.
  destruct x as [t|]; cbn; [|split; [discriminate | intros [? _]; discriminate]].
  destruct (String.eqb_spec t "") as [->|Hne]; split.
  - discriminate.
  - intros [E Hs]. injection E as <-. congruence.
  - intros E. injection E as <-. auto.
  - intros [E _]. exact E.
Qed.

Lemma truthy_None (x : option string) :
  truthy x = None <-> x = None \/ x = Some "".
Proof.
  destruct x as [t|]; cbn; [|tauto].
  destruct (String.eqb_spec t "") as [->|Hne].
  - split; auto.
  - split; [discriminate|].
    intros [E | E]; [discriminate | injection E as E; congruence].
Qed.

Lemma getAuth_cases (env : gmap string string) :
  match getAuth env with
  | Ok (email, key) =>
      env !! "GOOGLE_CLIENT_EMAIL" = Some email /\ email <> ""
      /\ exists raw, env !! "GOOGLE_PRIVATE_KEY" = Some raw /\ raw <> ""
                     /\ key = unescape_newlines raw
  | Throw e =>
      e = Error "Missing GOOGLE_CLIENT_EMAIL or GOOGLE_PRIVATE_KEY"
      /\ (truthy (env !! "GOOGLE_CLIENT_EMAIL") = None
          \/ truthy (env !! "GOOGLE_PRIVATE_KEY") = None)
  end.
Proof.
  unfold getAuth.
  destruct (truthy (env !! "GOOGLE_CLIENT_EMAIL")) as [email|] eqn:Ee; [|auto].
  destruct (truthy (unescape_newlines <$> env !! "GOOGLE_PRIVATE_KEY")) as [key|] eqn:Ek.
  - apply truthy_Some in Ee as [Ee Hne]. apply truthy_Some in Ek as [Ek Hk].
    split; [exact Ee|]. split; [exact Hne|].
    destruct (env !! "GOOGLE_PRIVATE_KEY") as [raw|]; [|discriminate].
    injection Ek as <-. exists raw. repeat split.
    intros ->. now apply Hk.
  - split; [reflexivity|]. right.
    apply truthy_None in Ek. apply truthy_None.
    destruct (env !! "GOOGLE_PRIVATE_KEY") as [raw|]; [|now left].
    right. destruct Ek as [Ek | Ek]; [discriminate|].
    injection Ek as Ek. apply (proj1 (KeyFacts.unescape_empty _)) in Ek. now rewrite Ek.
Qed.

(** X8. The key handed to the spreadsheet and document stores: every
    escaped line feed (a backslash followed by [n]) of the configured
    key is replaced, so none is left; a key without one is unchanged;
    replacing twice changes nothing more; and the result is empty only
    for an empty key. *)
Theorem unescape_newlines_spec (key : string) :
  JsString.includes (unescape_newlines key) "\n" = false
  /\ (JsString.includes key "\n" = false -> unescape_newlines key = key)
  /\ unescape_newlines (unescape_newlines key) = unescape_newlines key
  /\ (unescape_newlines key = "" <-> key = "").
Proof.
  split; [apply KeyFacts.unescape_clean|].
  split; [apply KeyFacts.unescape_fixed|].
  split; [apply KeyFacts.unescape_fixed, KeyFacts.unescape_clean|].
  apply KeyFacts.unescape_empty.
Qed.

Lemma unescape_newlines_spec_witness :
  unescape_newlines "-----BEGIN-----" = "-----BEGIN-----".
Proof.
  exact (proj1 (proj2 (unescape_newlines_spec "-----BEGIN-----")) eq_refl).
Defined.

Example unescape_key :
  unescape_newlines "BEGIN\nabc\\nEND"
  = "BEGIN" +:+ newline +:+ "abc\" +:+ newline +:+ "END".
Proof. reflexivity. Qed.

(** X9. [getAuth] yields credentials exactly when the client email and
    the private key are both defined and not empty, and the key it yields
    is the configured one with its escaped line feeds replaced; in every
    other case it throws the missing-credentials error. *)
Theorem getAuth_spec (env : gmap string string) (email key : string) :
  (getAuth env = Ok (email, key)
   <-> env !! "GOOGLE_CLIENT_EMAIL" = Some email /\ email <> ""
       /\ exists raw, env !! "GOOGLE_PRIVATE_KEY" = Some raw /\ raw <> ""
                      /\ key = unescape_newlines raw)
  /\ (returns (getAuth env) = false ->
      getAuth env = Throw (Error "Missing GOOGLE_CLIENT_EMAIL or GOOGLE_PRIVATE_KEY")).
Proof.
  pose proof (getAuth_cases env) as H. split; [split|].
  - intros E. now rewrite E in H.
  - intros (He & Hne & raw & Hr & Hrne & ->). unfold getAuth.
    rewrite (proj2 (truthy_Some _ _) (conj He Hne)), Hr. cbn [fmap option_fmap option_map].
    rewrite (proj2 (truthy_Some (Some (unescape_newlines raw)) (unescape_newlines raw)));
      [reflexivity|].
    split; [reflexivity|]. intros E. apply (proj1 (KeyFacts.unescape_empty _)) in E. congruence.
  - destruct (getAuth env) as [[e k]|e]; [discriminate|].
    intros _. now destruct H as [-> _].
Qed.

Lemma getAuth_spec_witness :
  getAuth Sample.bare_env
  = Throw (Error "Missing GOOGLE_CLIENT_EMAIL or GOOGLE_PRIVATE_KEY").
Proof.
  apply (getAuth_spec Sample.bare_env "" ""). vm_compute. reflexivity.
Defined.

(** ** The logger and the sheet tool *)

Section Sheets.
Variable w : World.
Variable env : gmap string string.

Lemma appendToSheet_run spreadsheetId range values h :
  appendToSheet w env spreadsheetId range values h
  = match getAuth env with
    | Throw e => (Throw e, [])
    | Ok (email, key) =>
        let sent := SheetsAppend email key spreadsheetId range "RAW" values in
        (match sheets_append w h sent with
         | None => Ok tt
         | Some err => Throw err
         end, [sent])
    end.
Proof.
  unfold appendToSheet. rewrite bind_lift.
  now destruct (getAuth env) as [[email key]|e].
Qed.

Lemma getAuth_missing :
  truthy (env !! "GOOGLE_CLIENT_EMAIL") = None
  \/ truthy (env !! "GOOGLE_PRIVATE_KEY") = None ->
  getAuth env = Throw (Error "Missing GOOGLE_CLIENT_EMAIL or GOOGLE_PRIVATE_KEY").
Proof.
  intros Hmissing. pose proof (getAuth_cases env) as H.
  destruct (getAuth env) as [[email key]|e]; [exfalso | now destruct H as [-> _]].
  destruct H as (He & Hne & raw & Hr & Hrne & _).
  destruct Hmissing as [Hm | Hm]; apply truthy_None in Hm as [Hm | Hm]; congruence.
Qed.

(** X10. The logger: without a spreadsheet id (undefined or empty) it
    does nothing and succeeds, whatever the other settings; with one, it
    fails before any call when the Google credentials are missing, and
    otherwise performs exactly one append of the single row
    [timestamp, event, action, summary] in RAW mode, to the configured
    range or to ["Logs!A:D"] when none is defined, and fails exactly when
    that append does. *)
Theorem logToSheet_spec (event action summary : string) (h : trace) :
  (env !! "GOOGLE_SHEETS_ID" = None \/ env !! "GOOGLE_SHEETS_ID" = Some "" ->
   logToSheet w env event action summary h = (Ok tt, []))
  /\ (forall spreadsheetId,
         truthy (env !! "GOOGLE_SHEETS_ID") = Some spreadsheetId ->
         match getAuth env with
         | Throw e => logToSheet w env event action summary h = (Throw e, [])
         | Ok (email, key) =>
             let sent :=
               SheetsAppend email key spreadsheetId
                            (default "Logs!A:D" (env !! "GOOGLE_SHEETS_RANGE")) "RAW"
                            [[clock_iso w h; event; action; summary]] in
             logToSheet w env event action summary h
             = (match sheets_append w h sent with
                | None => Ok tt
                | Some err => Throw err
                end, [sent])
         end).
Proof.
  split.
  - intros Hid. unfold logToSheet. now rewrite (truthy_empty _ Hid).
  - intros spreadsheetId Hid. unfold logToSheet.
    rewrite Hid, bind_ask, appendToSheet_run.
    now destruct (getAuth env) as [[email key]|e].
Qed.

(** X11. The sheet tool returns ["Sheet updated"] only after one
    resolved append of its values as a single row, with the credentials
    of [getAuth]; in every run it performs at most one call, an append,
    and none when the credentials are missing. *)
Theorem writeToGoogleSheet_spec (spreadsheetId range : string)
        (values : list string) (h : trace) :
  let run := writeToGoogleSheet w env spreadsheetId range values h in
  (forall result, run.1 = Ok result ->
     result = "Sheet updated"
     /\ exists email key,
          getAuth env = Ok (email, key)
          /\ run.2 = [SheetsAppend email key spreadsheetId range "RAW" [values]]
          /\ sheets_append w h
               (SheetsAppend email key spreadsheetId range "RAW" [values]) = None)
  /\ (forall e, getAuth env = Throw e -> run = (Throw e, []))
  /\ List.length run.2 <= 1 /\ forallb is_sheet run.2 = true.
Proof.
  intros run. unfold run, writeToGoogleSheet.
  rewrite bind_run, appendToSheet_run.
  destruct (getAuth env) as [[email key]|e].
  - cbn zeta.
    destruct (sheets_append w h _) as [err|] eqn:E; cbn [fst snd ret app].
    + split; [intros result [=] | split; [intros e [=] | split; [auto | reflexivity]]].
    + split; [|split; [intros e [=] | split; [auto | reflexivity]]].
      intros result [= <-]. split; [reflexivity|]. exists email, key. auto.
  - cbn [fst snd].
    split; [intros result [=] | split; [|split; [cbn; lia | reflexivity]]].
    intros e' [= <-]. reflexivity.
Qed.

End Sheets.

Lemma logToSheet_spec_witness :
  logToSheet (Sample.world (Some (Rejected "network")) None) Sample.bare_env
             "push" "fix-or-feature" "Push to unknown: undefined" []
  = (Ok tt, []).
Proof.
  apply (logToSheet_spec (Sample.world (Some (Rejected "network")) None)
           Sample.bare_env).
  left. vm_compute. reflexivity.
Defined.

Lemma writeToGoogleSheet_spec_witness :
  writeToGoogleSheet (Sample.world None None) Sample.bare_env
                     "sheet-1" "Logs!A:D" ["a"; "b"] []
  = (Throw (Error "Missing GOOGLE_CLIENT_EMAIL or GOOGLE_PRIVATE_KEY"), []).
Proof.
  apply (writeToGoogleSheet_spec (Sample.world None None) Sample.bare_env).
  vm_compute. reflexivity.
Defined.

(** ** Failures inside the pipeline *)

Section PipelineFailures.
Variable w : World.
Variable env : gmap string string.

(** X12. A deployment that names a spreadsheet but lacks the Google
    credentials serves no delivery: every request that passed the
    signature check and whose body parses and summarizes makes the
    handler fail with the missing-credentials error before any call, any
    dispatch and any response. *)
Theorem handler_sheet_without_credentials (req : Request) (h : trace)
        (event rawBody : string) (payload : value)
        (summary spreadsheetId : string) :
  verified w env req event rawBody ->
  JSON_parse w rawBody = Ok payload ->
  summarizeEvent event payload = Ok summary ->
  truthy (env !! "GOOGLE_SHEETS_ID") = Some spreadsheetId ->
  truthy (env !! "GOOGLE_CLIENT_EMAIL") = None
  \/ truthy (env !! "GOOGLE_PRIVATE_KEY") = None ->
  handler w env req h
  = (Throw (Error "Missing GOOGLE_CLIENT_EMAIL or GOOGLE_PRIVATE_KEY"), []).
Proof.
  intros Hv Hp Hs Hid Hmissing.
  rewrite (handler_verified _ _ _ _ _ h Hv), (accepted_steps _ _ _ _ _ h Hp).
  rewrite (handleWebhook_steps _ _ _ _ _ h Hs). cbn zeta.
  unfold logToSheet. rewrite Hid, bind_ask, appendToSheet_run.
  now rewrite (getAuth_missing env Hmissing).
Qed.

(** X13. A failure of the dispatch step is not turned into a result:
    when the reasoning backend or a call to the repository host rejects,
    the handler fails with that error after the effects performed so far,
    sends no notification and writes no response. *)
Theorem handler_dispatch_failure (req : Request) (h : trace)
        (event rawBody : string) (payload : value) (summary : string)
        (logged attempted : trace) (e : error) :
  verified w env req event rawBody ->
  JSON_parse w rawBody = Ok payload ->
  summarizeEvent event payload = Ok summary ->
  logToSheet w env event (decideAction summary) summary h = (Ok tt, logged) ->
  dispatch w env (decideAction summary) summary (h ++ logged) = (Throw e, attempted) ->
  handler w env req h = (Throw e, logged ++ attempted)
  /\ forallb (fun x => negb (is_telegram x) && negb (is_response x))
             (logged ++ attempted) = true.
Proof.
  intros Hv Hp Hs Hl Hd. split.
  - rewrite (handler_verified _ _ _ _ _ h Hv), (accepted_steps _ _ _ _ _ h Hp).
    rewrite (handleWebhook_steps _ _ _ _ _ h Hs). cbn zeta. now rewrite Hl, Hd.
  - pose proof (logToSheet_emits w env event (decideAction summary) summary h) as H1.
    pose proof (dispatch_emits w env (decideAction summary) summary (h ++ logged)) as H2.
    rewrite Hl in H1. rewrite Hd in H2. cbn [snd] in *.
    rewrite forallb_app, andb_true_iff.
    split; rewrite forallb_forall in *; intros x Hx.
    + specialize (H1 x Hx). now destruct x.
    + specialize (H2 x Hx). now destruct x.
Qed.

End PipelineFailures.

Lemma handler_sheet_without_credentials_witness :
  handler (Sample.world None None)
          (<["GOOGLE_SHEETS_ID" := "sheet-1"]> Sample.bare_env)
          Sample.fix_request []
  = (Throw (Error "Missing GOOGLE_CLIENT_EMAIL or GOOGLE_PRIVATE_KEY"), []).
Proof.
  apply (handler_sheet_without_credentials (Sample.world None None) _
           Sample.fix_request [] "issue_comment" Sample.fix_body
           Sample.fix_payload Sample.fix_summary "sheet-1");
    try (vm_compute; reflexivity).
  - repeat split. exists "s3cret", ("sha256=" +:+ Sample.digest).
    repeat split; vm_compute; reflexivity.
  - left. vm_compute. reflexivity.
Defined.

Lemma handler_dispatch_failure_witness :
  handler failing_model_world Sample.env Sample.fix_request []
  = (Throw (Rejected "rate limit"), [Sample.fix_log] ++ [Sample.fix_prompt]).
Proof.
  apply (handler_dispatch_failure failing_model_world Sample.env
           Sample.fix_request [] "issue_comment" Sample.fix_body
           Sample.fix_payload Sample.fix_summary);
    try (vm_compute; reflexivity).
  repeat split. exists "s3cret", ("sha256=" +:+ Sample.digest).
  repeat split; vm_compute; reflexivity.
Defined.

(** ** The order and the exclusiveness of the effects *)

Section Order.
Variable w : World.
Variable env : gmap string string.

Lemma logToSheet_short event action summary h :
  List.length (logToSheet w env event action summary h).2 <= 1.
Proof.
  unfold logToSheet. destruct (truthy (env !! "GOOGLE_SHEETS_ID")); [|cbn; lia].
  rewrite bind_ask, appendToSheet_run.
  destruct (getAuth env) as [[email key]|e]; cbn; lia.
Qed.

Lemma sendTelegramNotification_short message h :
  List.length (sendTelegramNotification w env message h).2 <= 1.
Proof.
  unfold sendTelegramNotification.
  destruct (truthy (env !! "TELEGRAM_BOT_TOKEN")); [|cbn; lia].
  destruct (truthy (env !! "TELEGRAM_CHAT_ID")); [|cbn; lia].
  rewrite bind_call_. destruct (telegram_send w _ _); cbn; lia.
Qed.

Lemma commitFileToGitHub_host owner repo path message content branch :
  emits is_host (commitFileToGitHub w env owner repo path message content branch).
Proof.
  unfold commitFileToGitHub.
  destruct (truthy (env !! "GITHUB_TOKEN")); auto 20 with emits.
Qed.

Lemma buildNewAgentRepo_host summary :
  emits is_host (buildNewAgentRepo w env summary).
Proof.
  unfold buildNewAgentRepo. pose proof commitFileToGitHub_host.
  destruct (truthy (env !! "GITHUB_TOKEN")); [|auto with emits].
  destruct (truthy (env !! "GITHUB_OWNER")); auto 20 with emits.
Qed.

(** The effects of [handleWebhook], step by step, whatever their outcomes. *)
Lemma handleWebhook_parts event payload summary h :
  summarizeEvent event payload = Ok summary ->
  exists logged dispatched notified,
    (handleWebhook w env event payload h).2 = logged ++ dispatched ++ notified
    /\ forallb is_sheet logged = true /\ List.length logged <= 1
    /\ forallb is_telegram notified = true /\ List.length notified <= 1
    /\ (dispatched = []
        \/ dispatched
           = (dispatch w env (decideAction summary) summary (h ++ logged)).2).
Proof.
  intros Hs. rewrite (handleWebhook_steps _ _ _ _ _ h Hs). cbn zeta.
  pose proof (logToSheet_emits w env event (decideAction summary) summary h) as H1.
  pose proof (logToSheet_short event (decideAction summary) summary h) as L1.
  destruct (logToSheet w env event (decideAction summary) summary h)
    as [[[]|e] t1]; cbn [snd] in *.
  2: { exists t1, [], []. rewrite !app_nil_r. repeat split; auto; try (cbn; lia); try (right; rewrite ?Ed; reflexivity). }
  destruct (dispatch w env (decideAction summary) summary (h ++ t1))
    as [[result|e] t2] eqn:Ed.
  2: { exists t1, t2, []. rewrite !app_nil_r. cbn [snd]. repeat split; auto; try (cbn; lia); try (right; rewrite ?Ed; reflexivity). }
  pose proof (sendTelegramNotification_emits w env
                (notification (decideAction summary) summary result)
                (h ++ t1 ++ t2)) as H3.
  pose proof (sendTelegramNotification_short
                (notification (decideAction summary) summary result)
                (h ++ t1 ++ t2)) as L3.
  destruct (sendTelegramNotification w env _ (h ++ t1 ++ t2)) as [[status|e] t3];
    cbn [snd] in *; exists t1, t2, t3; repeat split; auto;
    right; rewrite ?Ed; reflexivity.
Qed.

(** X14. Exactly one branch of the dispatch runs. When the summary is
    classified ["build-agent"], no run of the pipeline calls the reasoning
    backend; otherwise none calls the repository host, and a call to the
    backend carries the configured model (["gpt-4o-mini"] when none is
    defined), the fixed persona as system message and the summary inside
    the user message. *)
Theorem handleWebhook_one_branch (event : string) (payload : value)
        (summary : string) (h : trace) :
  summarizeEvent event payload = Ok summary ->
  let t := (handleWebhook w env event payload h).2 in
  (decideAction summary = "build-agent" ->
   forallb (fun e => negb (is_model e)) t = true)
  /\ (decideAction summary = "fix-or-feature" ->
      forallb (fun e => negb (is_host e)) t = true
      /\ forall model messages,
           In (ModelInvoke model messages) t ->
           model = default "gpt-4o-mini" (env !! "OPENAI_MODEL")
           /\ messages
              = [("system", systemPrompt);
                 ("user", "Webhook summary: " +:+ summary +:+ newline
                          +:+ "Decide the next developer action.")]).
Proof.
  intros Hs t.
  destruct (handleWebhook_parts event payload summary h Hs)
    as (t1 & t2 & t3 & Ht & H1 & _ & H3 & _ & H2).
  unfold t. rewrite Ht. clear t Ht.
  assert (Hside : forall p : effect -> bool,
             (forall e, is_sheet e = true -> p e = true) ->
             (forall e, is_telegram e = true -> p e = true) ->
             forallb p t2 = true -> forallb p (t1 ++ t2 ++ t3) = true).
  { intros p Hp1 Hp3 Hp2. rewrite !forallb_app, Hp2.
    rewrite forallb_forall in H1, H3.
    assert (forallb p t1 = true) as -> by (apply forallb_forall; auto).
    assert (forallb p t3 = true) as -> by (apply forallb_forall; auto).
    reflexivity. }
  split.
  - intros Hb. apply Hside; [now intros [] | now intros [] |].
    destruct H2 as [-> | ->]; [reflexivity|].
    unfold dispatch. rewrite Hb. cbn [String.eqb Ascii.eqb Bool.eqb].
    change (String.eqb "build-agent" "build-agent") with true. cbn iota.
    pose proof (buildNewAgentRepo_host summary (h ++ t1)) as Hh.
    rewrite forallb_forall in *. intros e He. specialize (Hh e He).
    unfold is_host in Hh. now apply andb_true_iff in Hh as [_ Hh].
  - intros Hf.
    assert (Hrun : t2 = [] \/ t2 = [ModelInvoke (openAiModel env)
                     [("system", systemPrompt);
                      ("user", "Webhook summary: " +:+ summary +:+ newline
                               +:+ "Decide the next developer action.")]]).
    { destruct H2 as [-> | ->]; [now left | right].
      unfold dispatch. rewrite Hf.
      change (String.eqb "fix-or-feature" "build-agent") with false. reflexivity. }
    split.
    + apply Hside; [now intros [] | now intros [] |].
      destruct Hrun as [-> | ->]; reflexivity.
    + intros model messages Hin.
      apply in_app_or in Hin as [Hin | Hin].
      { rewrite forallb_forall in H1. now apply H1 in Hin. }
      apply in_app_or in Hin as [Hin | Hin].
      2: { rewrite forallb_forall in H3. now apply H3 in Hin. }
      destruct Hrun as [-> | ->]; [destruct Hin|].
      destruct Hin as [Hin | []]. injection Hin as <- <-. split; reflexivity.
Qed.

(** X15. The effects of every run of the handler come in the order of
    the pipeline: at most one appended log row, then the calls of the
    dispatch step, then at most one chat message, then at most one
    response. *)
Theorem handler_pipeline_order (req : Request) (h : trace) :
  pipeline_order (handler w env req h).2.
Proof.
  assert (Halone : forall r, is_response r = true -> pipeline_order [r]).
  { intros r Hr. exists [], [], [], [r]. cbn. rewrite Hr. repeat split; auto. }
  assert (Hnone : pipeline_order []).
  { exists [], [], [], []. cbn. repeat split; auto. }
  unfold handler.
  destruct (negb (String.eqb (req_method req) "POST")); [now apply Halone|].
  destruct (truthy (env !! "GITHUB_WEBHOOK_SECRET")) as [secret|];
    [|now apply Halone].
  rewrite bind_lift.
  destruct (readRawBody req) as [rawBody|e]; [|exact Hnone].
  destruct (truthy (req_headers req !! "x-hub-signature-256")) as [signature|];
    [|now apply Halone].
  destruct (truthy (req_headers req !! "x-github-event")) as [event|];
    [|now apply Halone].
  destruct (negb (verify w secret rawBody signature)); [now apply Halone|].
  rewrite bind_lift.
  destruct (JSON_parse w rawBody) as [p|e]; [|exact Hnone].
  rewrite bind_run.
  destruct (summarizeEvent event p) as [summary|e] eqn:Hs.
  - destruct (handleWebhook_parts event p summary h Hs)
      as (t1 & t2 & t3 & Ht & H1 & L1 & H3 & L3 & H2).
    assert (Hd : forallb is_dispatch t2 = true).
    { destruct H2 as [-> | ->]; [reflexivity | apply dispatch_emits]. }
    destruct (handleWebhook w env event p h) as [[result|e] t]; cbn [fst snd] in *;
      subst t.
    + exists t1, t2, t3,
        [Respond 200 "application/json"
           (VObj [("status", VStr "ok"); ("result", VStr result)])].
      rewrite <- !app_assoc. repeat split; auto.
    + exists t1, t2, t3, []. rewrite !app_nil_r. repeat split; auto.
  - unfold handleWebhook. rewrite bind_lift, Hs. exact Hnone.
Qed.

End Order.

Lemma handleWebhook_one_branch_witness :
  forallb (fun e => negb (is_model e))
          (handleWebhook (Sample.world None None) Sample.env
                         "issues" Sample.build_payload []).2 = true.
Proof.
  apply (handleWebhook_one_branch (Sample.world None None) Sample.env
           "issues" Sample.build_payload "Issue: Build an agent for metrics" []);
    reflexivity.
Defined.

(** ** The calls to the repository host *)

Section Host.
Variable w : World.
Variable env : gmap string string.

(** Runs the next remote call of a computation and splits on its answer. *)
Ltac next_call :=
  first [rewrite bind_call | rewrite bind_call_];
  match goal with
  | |- context [match ?answer with Ok _ => _ | Throw _ => _ end] =>
      let E := fresh "E" in destruct answer eqn:E
  | |- context [match ?answer with Some _ => _ | None => _ end] =>
      let E := fresh "E" in destruct answer eqn:E
  end.

(** X16. A successful commit threads the answers of the repository
    host: the commit read is the one the branch pointed to, the new tree
    is built on that commit's tree with the one blob just created, the new
    commit has that tree and that commit as only parent, and the branch
    read at the start is the one moved to the new commit. Nothing else is
    called. *)
Theorem commitFileToGitHub_dataflow
        (owner repo path message content branch result : string) (h t : trace) :
  commitFileToGitHub w env owner repo path message content branch h = (Ok result, t) ->
  t <> [] ->
  exists token ref_sha commit_sha base_tree blob_sha tree_sha new_sha,
    let getRef := GitGetRef token owner repo ("heads/" +:+ branch) in
    let getCommit := GitGetCommit token owner repo ref_sha in
    let createBlob := GitCreateBlob token owner repo content "utf-8" in
    let createTree := GitCreateTree token owner repo base_tree
                        [TreeEntry path "100644" "blob" blob_sha] in
    let createCommit := GitCreateCommit token owner repo message tree_sha
                          [commit_sha] in
    let updateRef := GitUpdateRef token owner repo ("heads/" +:+ branch) new_sha in
    truthy (env !! "GITHUB_TOKEN") = Some token
    /\ t = [getRef; getCommit; createBlob; createTree; createCommit; updateRef]
    /\ git_getRef w h getRef = Ok ref_sha
    /\ git_getCommit w (h ++ [getRef]) getCommit = Ok (commit_sha, base_tree)
    /\ git_createBlob w (h ++ [getRef; getCommit]) createBlob = Ok blob_sha
    /\ git_createTree w (h ++ [getRef; getCommit; createBlob]) createTree = Ok tree_sha
    /\ git_createCommit w (h ++ [getRef; getCommit; createBlob; createTree])
                        createCommit = Ok new_sha
    /\ result = "Committed to " +:+ owner +:+ "/" +:+ repo +:+ ":" +:+ path.
Proof.
  unfold commitFileToGitHub.
  destruct (truthy (env !! "GITHUB_TOKEN")) as [token|] eqn:Etok.
  2: { unfold ret. intros H Hne. injection H as _ Ht. congruence. }
  do 5 (next_call; [|cbn [fst snd]; intros H; discriminate H]).
  next_call; [cbn [fst snd]; intros H; discriminate H|]. cbn [fst snd ret].
  rewrite <- !app_assoc in *. cbn [app] in *.
  intros [= <- <-] _.
  match goal with E : git_getCommit _ _ _ = Ok ?c |- _ => destruct c as [commit_sha base_tree] end.
  repeat eexists; eauto.
Qed.

Lemma commitFileToGitHub_order owner repo path message content branch h token :
  truthy (env !! "GITHUB_TOKEN") = Some token ->
  let run := commitFileToGitHub w env owner repo path message content branch h in
  (exists rest, tail scaffold_calls = map call_name run.2 ++ rest)
  /\ (returns run.1 = true -> List.length run.2 = 6).
Proof.
  intros Htok run. unfold run, commitFileToGitHub. rewrite Htok. split.
  - do 5 (next_call; [|cbn; eexists; reflexivity]).
    next_call; cbn; eexists; reflexivity.
  - do 5 (next_call; [|cbn; discriminate]).
    next_call; cbn; [discriminate | reflexivity].
Qed.

(** X17. A scaffold performs its calls in one fixed order and stops at
    the first that fails: with token and owner configured, the calls of
    every run are, by name, an initial part of
    create repository, get ref, get commit, create blob, create tree,
    create commit, update ref; the run starts with the creation of the
    repository and returns only after all seven calls; it calls nothing
    but the repository host, so nothing undoes the creation after a later
    failure. *)
Theorem buildNewAgentRepo_order (summary : string) (h : trace) (token owner : string) :
  truthy (env !! "GITHUB_TOKEN") = Some token ->
  truthy (env !! "GITHUB_OWNER") = Some owner ->
  let run := buildNewAgentRepo w env summary h in
  (exists rest, scaffold_calls = map call_name run.2 ++ rest)
  /\ (exists rest, run.2 = ReposCreate token ("agent-" +:+ pretty (clock_ms w h))
                              "Generated agent scaffold from Linda" true :: rest)
  /\ (returns run.1 = true -> List.length run.2 = 7)
  /\ forallb is_host run.2 = true.
Proof.
  intros Htok Hown run.
  assert (Hhost : forallb is_host run.2 = true) by apply buildNewAgentRepo_host.
  split; [|split; [|split; [|exact Hhost]]]; clear Hhost;
    unfold run, buildNewAgentRepo; rewrite Htok, Hown, bind_ask, bind_call_.
  - destruct (repos_create w h _); [cbn; eexists; reflexivity|].
    rewrite bind_run. cbn [fst snd].
    match goal with
    | |- context [commitFileToGitHub w env owner ?name ?path ?msg ?scaffold ?branch ?h'] =>
        destruct (commitFileToGitHub_order owner name path msg scaffold branch h'
                    token Htok) as [[rest Hrest] _];
        destruct (commitFileToGitHub w env owner name path msg scaffold branch h')
          as [[r|e] t1]
    end; cbn [fst snd ret app map call_name] in *; rewrite ?app_nil_r;
      exists rest; unfold scaffold_calls in *; cbn [tail] in Hrest;
      now rewrite Hrest.
  - destruct (repos_create w h _); cbn [snd]; eexists; reflexivity.
  - destruct (repos_create w h _); [cbn; discriminate|].
    rewrite bind_run. cbn [fst snd].
    match goal with
    | |- context [commitFileToGitHub w env owner ?name ?path ?msg ?scaffold ?branch ?h'] =>
        destruct (commitFileToGitHub_order owner name path msg scaffold branch h'
                    token Htok) as [_ Hlen];
        destruct (commitFileToGitHub w env owner name path msg scaffold branch h')
          as [[r|e] t1]
    end; cbn [fst snd ret app returns List.length] in *; [|discriminate].
    intros _. rewrite app_nil_r. f_equal. now apply Hlen.
Qed.

End Host.

Lemma commitFileToGitHub_dataflow_witness :
  exists token ref_sha commit_sha base_tree blob_sha tree_sha new_sha,
    [GitGetRef "ghp_token" "acme" "agent-1" "heads/main";
     GitGetCommit "ghp_token" "acme" "agent-1" "ref0";
     GitCreateBlob "ghp_token" "acme" "agent-1" "# agent-1" "utf-8";
     GitCreateTree "ghp_token" "acme" "agent-1" "tree0"
       [TreeEntry "README.md" "100644" "blob" "blob1"];
     GitCreateCommit "ghp_token" "acme" "agent-1" "init" "tree1" ["commit0"];
     GitUpdateRef "ghp_token" "acme" "agent-1" "heads/main" "commit1"]
    = [GitGetRef token "acme" "agent-1" "heads/main";
       GitGetCommit token "acme" "agent-1" ref_sha;
       GitCreateBlob token "acme" "agent-1" "# agent-1" "utf-8";
       GitCreateTree token "acme" "agent-1" base_tree
         [TreeEntry "README.md" "100644" "blob" blob_sha];
       GitCreateCommit token "acme" "agent-1" "init" tree_sha [commit_sha];
       GitUpdateRef token "acme" "agent-1" "heads/main" new_sha].
Proof.
  destruct (commitFileToGitHub_dataflow (Sample.world None None) Sample.env
              "acme" "agent-1" "README.md" "init" "# agent-1" "main"
              "Committed to acme/agent-1:README.md" []
              [GitGetRef "ghp_token" "acme" "agent-1" "heads/main";
               GitGetCommit "ghp_token" "acme" "agent-1" "ref0";
               GitCreateBlob "ghp_token" "acme" "agent-1" "# agent-1" "utf-8";
               GitCreateTree "ghp_token" "acme" "agent-1" "tree0"
                 [TreeEntry "README.md" "100644" "blob" "blob1"];
               GitCreateCommit "ghp_token" "acme" "agent-1" "init" "tree1" ["commit0"];
               GitUpdateRef "ghp_token" "acme" "agent-1" "heads/main" "commit1"])
    as (token & ref_sha & commit_sha & base_tree & blob_sha & tree_sha & new_sha
        & _ & Ht & _); [vm_compute; reflexivity | discriminate |].
  exists token, ref_sha, commit_sha, base_tree, blob_sha, tree_sha, new_sha.
  exact Ht.
Defined.

Lemma buildNewAgentRepo_order_witness :
  exists rest,
    scaffold_calls
    = map call_name (buildNewAgentRepo (Sample.world None None) Sample.env
                                       "Issue: Build an agent" []).2 ++ rest.
Proof.
  apply (buildNewAgentRepo_order (Sample.world None None) Sample.env
           "Issue: Build an agent" [] "ghp_token" "acme");
    vm_compute; reflexivity.
Defined.

(** ** The document tool *)

Module DocFacts.

Lemma join_concat (l : list string) : JsString.join "" l = String.concat "" l.
Proof.
  induction l as [|x l IH]; [reflexivity|].
  destruct l as [|y l]; [reflexivity|].
  change (JsString.join "" (x :: y :: l)) with (x +:+ "" +:+ JsString.join "" (y :: l)).
  now rewrite IH.
Qed.

Lemma concat_cons (x : string) (l : list string) :
  String.concat "" (x :: l) = x +:+ String.concat "" l.
Proof.
  destruct l as [|y l]; [cbn; now rewrite TrimFacts.append_nil_r | reflexivity].
Qed.

Lemma concat_app (a b : list string) :
  String.concat "" (a ++ b) = String.concat "" a +:+ String.concat "" b.
Proof.
  induction a as [|x a IH]; [reflexivity|].
  change ((x :: a) ++ b) with (x :: (a ++ b)).
  now rewrite !concat_cons, IH, TrimFacts.append_assoc.
Qed.

Lemma concat_flat_map {A} (f : A -> string) (g : A -> list string) (l : list A) :
  (forall x, f x = String.concat "" (g x)) ->
  String.concat "" (map f l) = String.concat "" (flat_map g l).
Proof.
  intros Hfg. induction l as [|x l IH]; [reflexivity|].
  cbn [map flat_map]. now rewrite concat_cons, concat_app, Hfg, IH.
Qed.

Lemma element_text_runs (el : paragraph_element) :
  element_text el = String.concat "" (element_runs el).
Proof.
  unfold element_text, element_runs.
  destruct (el_textRun el) as [[[text|]]|]; reflexivity.
Qed.

Lemma item_text_runs (item : structural_element) :
  item_text item = String.concat "" (item_runs item).
Proof.
  unfold item_text, item_runs.
  destruct (se_paragraph item) as [[[elements|]]|]; try reflexivity.
  cbn [par_elements]. rewrite join_concat.
  exact (concat_flat_map element_text element_runs elements element_text_runs).
Qed.




End DocFacts.

Section Documents.
Variable env : gmap string string.
Variable documents_get : string -> string -> string -> outcome document.

(** X18. [readGoogleDoc] asks for the document only with credentials: it
    fails with the error of [getAuth] whatever the store would answer.
    When it returns, the text is the concatenation, in reading order, of
    the defined text runs of the document's paragraphs, with the white
    space at both ends removed; absent bodies, items that are not
    paragraphs and runs without content add nothing. *)
Theorem readGoogleDoc_spec (documentId : string) :
  (forall e, getAuth env = Throw e ->
             readGoogleDoc env documents_get documentId = Throw e)
  /\ (forall text,
         readGoogleDoc env documents_get documentId = Ok text ->
         starts_blank text = false /\ ends_blank text = false
         /\ exists email key data,
              getAuth env = Ok (email, key)
              /\ documents_get email key documentId = Ok data
              /\ text = JsString.trim (String.concat "" (document_runs data))).
Proof.
  unfold readGoogleDoc. split.
  - intros e ->. reflexivity.
  - intros text H.
    destruct (getAuth env) as [[email key]|e]; [|discriminate H]. cbn [obind fst snd] in H.
    destruct (documents_get email key documentId) as [data|e] eqn:Ed;
      [|discriminate H].
    cbn [obind] in H. injection H as <-.
    split; [apply TrimFacts.trim_ends|]. split; [apply TrimFacts.trim_ends|].
    exists email, key, data. repeat split; auto.
    rewrite DocFacts.join_concat. f_equal. unfold document_runs.
    destruct (doc_body data) as [body|]; [|reflexivity].
    exact (DocFacts.concat_flat_map item_text item_runs _ DocFacts.item_text_runs).
Qed.


End Documents.

Example read_sample_document :
  readGoogleDoc Sample.env sample_documents "doc-1"
  = Ok ("Design notes" +:+ newline +:+ "v2").
Proof. vm_compute. reflexivity. Qed.

Lemma readGoogleDoc_spec_witness :
  starts_blank ("Design notes" +:+ newline +:+ "v2") = false
  /\ ends_blank ("Design notes" +:+ newline +:+ "v2") = false
  /\ exists email key data,
       getAuth Sample.env = Ok (email, key)
       /\ sample_documents email key "doc-1" = Ok data
       /\ "Design notes" +:+ newline +:+ "v2"
          = JsString.trim (String.concat "" (document_runs data)).
Proof.
  apply (readGoogleDoc_spec Sample.env sample_documents "doc-1").
  vm_compute. reflexivity.
Defined.


(** ** Configuration errors of the builder *)

Section Unconfigured.
Variable w : World.
Variable env : gmap string string.

(** X20. A request for an agent on a deployment without repository
    token, or without owner, is answered like a success: no call to the
    repository host is made, and when the notifier completes the handler
    responds 200 with the result ["Missing GITHUB_TOKEN"], or
    ["Missing GITHUB_OWNER"] when only the owner is missing. *)
Theorem handler_builder_unconfigured (req : Request) (h : trace)
        (event rawBody : string) (payload : value) (summary : string)
        (logged notified : trace) (status : string) :
  verified w env req event rawBody ->
  JSON_parse w rawBody = Ok payload ->
  summarizeEvent event payload = Ok summary ->
  decideAction summary = "build-agent" ->
  logToSheet w env event "build-agent" summary h = (Ok tt, logged) ->
  let missing :=
    match truthy (env !! "GITHUB_TOKEN"), truthy (env !! "GITHUB_OWNER") with
    | None, _ => Some "Missing GITHUB_TOKEN"
    | Some _, None => Some "Missing GITHUB_OWNER"
    | Some _, Some _ => None
    end in
  forall result,
    missing = Some result ->
    sendTelegramNotification w env (notification "build-agent" summary result)
                             (h ++ logged) = (Ok status, notified) ->
    handler w env req h
    = (Ok tt, logged ++ notified
              ++ [Respond 200 "application/json"
                    (VObj [("status", VStr "ok"); ("result", VStr result)])]).
Proof.
  intros Hv Hp Hs Ha Hl missing result Hmissing Hn.
  assert (Hd : dispatch w env "build-agent" summary (h ++ logged) = (Ok result, [])).
  { unfold dispatch, buildNewAgentRepo.
    change (String.eqb "build-agent" "build-agent") with true. cbn iota.
    unfold missing in Hmissing.
    destruct (truthy (env !! "GITHUB_TOKEN")); [|now injection Hmissing as <-].
    destruct (truthy (env !! "GITHUB_OWNER")); [discriminate|].
    now injection Hmissing as <-. }
  rewrite (handler_verified _ _ _ _ _ h Hv), (accepted_steps _ _ _ _ _ h Hp).
  rewrite (handleWebhook_steps _ _ _ _ _ h Hs). cbn zeta.
  rewrite Ha, Hl, Hd. cbn [app]. rewrite app_nil_r, Hn.
  now rewrite <- ?app_assoc.
Qed.

End Unconfigured.

Lemma handler_builder_unconfigured_witness :
  handler (Sample.world None None) Sample.bare_env
          (Sample.request (Sample.signed "issues") Sample.build_body) []
  = (Ok tt, [] ++ [] ++ [Respond 200 "application/json"
                          (VObj [("status", VStr "ok");
                                 ("result", VStr "Missing GITHUB_TOKEN")])]).
Proof.
  apply (handler_builder_unconfigured (Sample.world None None) Sample.bare_env
           (Sample.request (Sample.signed "issues") Sample.build_body) []
           "issues" Sample.build_body Sample.build_payload
           "Issue: Build an agent for metrics" [] []
           "Missing TELEGRAM_BOT_TOKEN or TELEGRAM_CHAT_ID");
    try (vm_compute; reflexivity).
  repeat split. exists "s3cret", ("sha256=" +:+ Sample.digest).
  repeat split; vm_compute; reflexivity.
Defined.
